(** * repertorium_la: MuRET packages to YOLO data sets

    A shallow embedding of the core of the repository: the bounding-box
    geometry ([entities/YOLO/BoundigBox.py]), the label dictionary
    ([entities/MuRET/Dictionary.py]), the package loader
    ([entities/MuRET/Package.py]), the image cache ([utils/image.py]), the
    partition manager ([utils/data.py]) and the label-file writer
    ([entities/YOLO/Object.py], [entities/YOLO/Image.py],
    [transcoders/MuRET2YOLO.py]).

    Conventions of the embedding.
    - Python numbers are exact rationals ([Q]); [round] and [math.floor] are
      the exact operations on them, [/] raises [ZeroDivisionError] on a zero
      divisor.
    - A Python exception is a value of [exn]; a call that may raise returns
      a [result].
    - Bounding boxes are mutable objects shared between the MuRET graph and
      the detection objects; they live in a store and are named by their
      index in it. *)

From Stdlib Require Import Ascii String QArith Qround Qabs Lqa.
From stdpp Require Import base option list strings gmap sorting pretty.

Local Open Scope string_scope.
Local Open Scope list_scope.

(** ** Exceptions and results *)

(** What [json.loads] returns; also the values used as keys of [d[k]]. *)
#[local] Unset Elimination Schemes.
Inductive pyval :=
  | VNone
  | VBool (x : bool)
  | VNum (x : Q)
  | VStr (x : string)
  | VList (xs : list pyval)
  | VDict (kvs : gmap string pyval).
#[local] Set Elimination Schemes.

Inductive exn :=
  | ValueError (msg : string)
  | AttributeError (msg : string)
  | KeyError (k : pyval)
  | TypeError
  | ZeroDivisionError
  | JSONDecodeError
  | IOError (msg : string)
  | MuRETException (msg : string)
  | Exception (msg : string).

Inductive result (A : Type) :=
  | Ok (x : A)
  | Raise (e : exn).
Arguments Ok {A} x.
Arguments Raise {A} e.

#[global] Instance result_ret : MRet result := λ A x, Ok x.
#[global] Instance result_bind : MBind result := λ A B f r,
  match r with
  | Ok x => f x
  | Raise e => Raise e
  end.

#[global] Instance result_fmap : FMap result := λ A B f r,
  match r with
  | Ok x => Ok (f x)
  | Raise e => Raise e
  end.

Definition is_ok {A} (r : result A) : bool :=
  match r with Ok _ => true | Raise _ => false end.

(** ** Numbers *)

Module Num.

(** [x / y] on Python numbers. *)
Definition truediv (x y : Q) : result Q :=
  if Qeq_bool y 0 then Raise ZeroDivisionError else Ok (x / y)%Q.

(** Nearest integer, ties to the even one: the rounding of [round]. *)
Definition round_half_even (x : Q) : Z :=
  let f := Qfloor x in
  match (x - inject_Z f ?= 1 # 2)%Q with
  | Lt => f
  | Gt => (f + 1)%Z
  | Eq => if Z.even f then f else (f + 1)%Z
  end.

Definition pow10 (ndigits : nat) : Z := (10 ^ Z.of_nat ndigits)%Z.

(** [round(x, ndigits)]. *)
Definition round (x : Q) (ndigits : nat) : Q :=
  (inject_Z (round_half_even (x * inject_Z (pow10 ndigits))) / inject_Z (pow10 ndigits))%Q.

(** [math.floor(x)]. *)
Definition floor (x : Q) : Z := Qfloor x.

End Num.

(** ** entities/YOLO/BoundigBox.py *)

Record Dimensions := mkDimensions { width : Q; height : Q }.

Definition SUPPORTED_OD_FORMATS : list string := ["yolo"; "coco"; "pascal"].

(** The text of [str(SUPPORTED_OD_FORMATS)]. *)
Definition SUPPORTED_OD_FORMATS_repr : string := "['yolo', 'coco', 'pascal']".

Record BoundingBox := mkBoundingBox {
  a : Q;
  b : Q;
  c : Q;
  d : Q;
  current_format : string
}.

Module BoundingBox.

(** [BoundingBox.__init__]: the only place where the format is checked. *)
Definition init (a b c d : Q) (format : string) : result BoundingBox :=
  if bool_decide (format ∈ SUPPORTED_OD_FORMATS) then
    Ok (mkBoundingBox a b c d format)
  else
    Raise (ValueError ("Unsupported format '" +:+ format +:+ "', must be one of "
                         +:+ SUPPORTED_OD_FORMATS_repr)).

(** [BoundingBox.resize]; the in-place update is done by the caller, which
    writes the result back to the store cell of the box. *)
Definition resize (self : BoundingBox) (scale_factor : Q * Q) : BoundingBox :=
  mkBoundingBox (scale_factor.1 * a self) (scale_factor.2 * b self)
                (scale_factor.1 * c self) (scale_factor.2 * d self)
                (current_format self).

Definition upper_ascii (ch : ascii) : ascii :=
  let n := nat_of_ascii ch in
  if bool_decide (97 ≤ n ≤ 122)%nat then ascii_of_nat (n - 32) else ch.

Fixpoint upper (s : string) : string :=
  match s with
  | EmptyString => EmptyString
  | String ch s' => String (upper_ascii ch) (upper s')
  end.

Definition to_yolo (self : BoundingBox) (img_dims : option Dimensions) : result BoundingBox :=
  if String.eqb (current_format self) "yolo" then Ok self
  else
    match img_dims with
    | None =>
        Raise (ValueError ("Image dimensions are needed to convert to YOLO format from "
                             +:+ upper (current_format self) +:+ "."))
    | Some dims =>
        let img_width := width dims in
        let img_height := height dims in
        let '(x_center, y_center, width, height) :=
          if String.eqb (current_format self) "pascal" then
            ((a self + c self) / 2, (b self + d self) / 2,
             c self - a self, d self - b self)%Q
          else
            (a self + c self / 2, b self + d self / 2, c self, d self)%Q in
        nx ← Num.truediv x_center img_width;
        ny ← Num.truediv y_center img_height;
        nw ← Num.truediv width img_width;
        nh ← Num.truediv height img_height;
        init (Num.round nx 5) (Num.round ny 5) (Num.round nw 5) (Num.round nh 5) "yolo"
    end.

Definition to_coco (self : BoundingBox) (img_dims : option Dimensions) : result BoundingBox :=
  if String.eqb (current_format self) "coco" then Ok self
  else if String.eqb (current_format self) "yolo" then
    match img_dims with
    | None =>
        Raise (ValueError "Image dimensions are needed to convert to COCO format from YOLO.")
    | Some dims =>
        let img_width := width dims in
        let img_height := height dims in
        let width := (c self * img_width)%Q in
        let height := (d self * img_height)%Q in
        let x := (a self * img_width - width / 2)%Q in
        let y := (b self * img_height - height / 2)%Q in
        init x y width height "coco"
    end
  else
    init (a self) (b self) (c self - a self)%Q (d self - b self)%Q "coco".

Definition to_pascal (self : BoundingBox) (img_dims : option Dimensions) : result BoundingBox :=
  if String.eqb (current_format self) "pascal" then Ok self
  else if String.eqb (current_format self) "yolo" then
    match img_dims with
    | None =>
        Raise (ValueError "Image dimensions are needed to convert to PASCAL format from YOLO.")
    | Some dims =>
        let img_width := width dims in
        let img_height := height dims in
        let width := (c self * img_width)%Q in
        let height := (d self * img_height)%Q in
        let x := (a self * img_width - width / 2)%Q in
        let y := (b self * img_height - height / 2)%Q in
        let x2 := (x + width)%Q in
        let y2 := (y + height)%Q in
        init x y x2 y2 "pascal"
    end
  else
    init (a self) (b self) (a self + c self)%Q (b self + d self)%Q "pascal".

Definition conversion := BoundingBox → option Dimensions → result BoundingBox.

(** The attributes of a box whose name starts with [to_]; [getattr] with
    such a name finds one of them or raises. *)
Definition to_methods : list (string * conversion) :=
  [("to_yolo", to_yolo); ("to_coco", to_coco); ("to_pascal", to_pascal)].

Fixpoint lookup_method (name : string) (table : list (string * conversion)) : option conversion :=
  match table with
  | [] => None
  | (n, m) :: table' => if String.eqb name n then Some m else lookup_method name table'
  end.

Definition getattr (name : string) : result conversion :=
  match lookup_method name to_methods with
  | Some m => Ok m
  | None => Raise (AttributeError ("'BoundingBox' object has no attribute '" +:+ name +:+ "'"))
  end.

(** [BoundingBox.to]: [getattr(self, f'to_{format}')(img_dims)]. *)
Definition to (self : BoundingBox) (format : string) (img_dims : option Dimensions)
  : result BoundingBox :=
  m ← getattr ("to_" +:+ format);
  m self img_dims.

(** The text of a number is left to the caller (see [Repr]). *)
Definition str (repr : Q → string) (self : BoundingBox) : string :=
  repr (a self) +:+ " " +:+ repr (b self) +:+ " " +:+ repr (c self) +:+ " " +:+ repr (d self).

End BoundingBox.

(** ** entities/MuRET/Dictionary.py *)

(** The character [chr(34)], which the messages of the package put around
    a label. *)
Definition dquote : string := String (ascii_of_nat 34) EmptyString.

Record Dictionary := mkDictionary {
  label_list : list string;
  inverted : gmap string nat
}.

Module Dictionary.

(** [list.index(x)]: the position of the first [x], [ValueError] when
    there is none. *)
Fixpoint list_index (x : string) (l : list string) : option nat :=
  match l with
  | [] => None
  | y :: l' => if String.eqb y x then Some 0%nat else S <$> list_index x l'
  end.

Definition empty : Dictionary := mkDictionary [] ∅.

(** [Dictionary.add]. *)
Definition add (self : Dictionary) (label : string) : result Dictionary :=
  if bool_decide (label ∈ label_list self) then Ok self
  else
    let label_list' := label_list self ++ [label] in
    match list_index label label_list' with
    | Some i => Ok (mkDictionary label_list' (<[label := i]> (inverted self)))
    | None => Raise (ValueError (label +:+ " is not in list"))
    end.

Fixpoint add_all (self : Dictionary) (labels : list string) : result Dictionary :=
  match labels with
  | [] => Ok self
  | label :: labels' => self' ← add self label; add_all self' labels'
  end.

(** [Dictionary.__init__]. *)
Definition init (label_list : list string) : result Dictionary :=
  add_all empty label_list.

Definition size (self : Dictionary) : nat := length (label_list self).

Definition contains (self : Dictionary) (label : string) : bool :=
  bool_decide (is_Some (inverted self !! label)).

Definition index_of (self : Dictionary) (label : string) : result nat :=
  match inverted self !! label with
  | None =>
      Raise (MuRETException ("Label " +:+ dquote +:+ label +:+ dquote +:+ " not found in dictionary"))
  | Some i => Ok i
  end.

(** [Dictionary.label]; a list of strings has no [None] slot, so the last
    failure of the source is the lookup that finds nothing. *)
Definition label (self : Dictionary) (index : Z) : result string :=
  if bool_decide (index < 0)%Z then
    Raise (MuRETException ("Negative index " +:+ pretty index))
  else if bool_decide (Z.of_nat (length (label_list self)) ≤ index)%Z then
    Raise (MuRETException ("Index >= " +:+ pretty (length (label_list self))))
  else
    match label_list self !! Z.to_nat index with
    | Some result => Ok result
    | None => Raise (MuRETException ("Index not found in dictionary " +:+ pretty index))
    end.

End Dictionary.

(** ** Decoded JSON and the file system *)

Module Py.

(** [d[k]] on a decoded object: its keys are strings, any other hashable
    key is missing, a list or an object is no key at all. *)
Definition getitem (d : pyval) (k : pyval) : result pyval :=
  match d with
  | VDict kvs =>
      match k with
      | VStr s => match kvs !! s with Some v => Ok v | None => Raise (KeyError k) end
      | VList _ | VDict _ => Raise TypeError
      | _ => Raise (KeyError k)
      end
  | _ => Raise TypeError
  end.

(** [k in d] for the decoded objects of a package. *)
Definition has_key (k : string) (d : pyval) : result bool :=
  match d with
  | VDict kvs => Ok (bool_decide (is_Some (kvs !! k)))
  | _ => Raise TypeError
  end.

(** The items a [for] loop visits; the package format has arrays there. *)
Definition iter (v : pyval) : result (list pyval) :=
  match v with
  | VList xs => Ok xs
  | _ => Raise TypeError
  end.

(** A value read where the entity classes declare [str]. *)
Definition as_str (v : pyval) : result string :=
  match v with
  | VStr s => Ok s
  | _ => Raise TypeError
  end.

(** A value read where the entity classes declare a number. *)
Definition as_num (v : pyval) : result Q :=
  match v with
  | VNum x => Ok x
  | _ => Raise TypeError
  end.

End Py.

(** A file holds a text that [json.loads] decodes, or other bytes. *)
Inductive file :=
  | FJson (v : pyval)
  | FData (bytes : string).

Record FS := mkFS {
  files : gmap string file;
  dirs : gset string
}.

Module Os.

Definition exists_ (fs : FS) (p : string) : bool :=
  bool_decide (is_Some (files fs !! p)) || bool_decide (p ∈ dirs fs).

Definition isdir (fs : FS) (p : string) : bool := bool_decide (p ∈ dirs fs).

Definition slash : ascii := ascii_of_nat 47.

Fixpoint ends_with_slash (s : string) : bool :=
  match s with
  | EmptyString => false
  | String ch EmptyString => Ascii.eqb ch slash
  | String _ s' => ends_with_slash s'
  end.

(** [os.path.join(a, b)] of two components. *)
Definition join (a b : string) : string :=
  match b with
  | String ch _ =>
      if Ascii.eqb ch slash then b
      else if String.eqb a "" then b
      else if ends_with_slash a then a +:+ b
      else a +:+ "/" +:+ b
  | EmptyString =>
      if String.eqb a "" then b
      else if ends_with_slash a then a
      else a +:+ "/"
  end.

Fixpoint take_until (stop : ascii) (l : list ascii) : list ascii :=
  match l with
  | [] => []
  | ch :: l' => if Ascii.eqb ch stop then [] else ch :: take_until stop l'
  end.

(** [os.path.split(p)]: what is before the last slash and what is after;
    the paths of the model have no doubled slash. *)
Definition split (p : string) : string * string :=
  let l := list_ascii_of_string p in
  let tail := reverse (take_until slash (reverse l)) in
  let head := take (length l - length tail) l in
  let head' := if bool_decide (1 < length head)%nat then take (length head - 1) head else head in
  (string_of_list_ascii head', string_of_list_ascii tail).

Definition endswith (s suffix : string) : bool :=
  let n := String.length s in
  let k := String.length suffix in
  bool_decide (k ≤ n)%nat && String.eqb (substring (n - k) k s) suffix.

Definition startswith (s prefix : string) : bool := String.prefix prefix s.

Definition dot : ascii := ascii_of_nat 46.

(** [os.path.splitext(p)[0]]: the base name loses what starts at its last
    dot, unless only dots come before it. *)
Definition splitext_root (p : string) : string :=
  let base := list_ascii_of_string (split p).2 in
  let ext := take_until dot (reverse base) in
  if bool_decide (length ext < length base)%nat then
    let stem := take (length base - (length ext + 1)) base in
    if forallb (λ ch, Ascii.eqb ch dot) stem then p
    else substring 0 (String.length p - (length ext + 1)) p
  else p.

(** The files that [os.walk(folder)] reaches, each with its directory. *)
Definition walk (fs : FS) (folder : string) : list (string * string) :=
  omap (λ '(p, _), if startswith p (folder +:+ "/") then Some ((split p).1, p) else None)
       (map_to_list (files fs)).

(** [makedirs]: the directory exists afterwards. *)
Definition makedirs (fs : FS) (p : string) : FS := mkFS (files fs) ({[p]} ∪ dirs fs).

Definition write (fs : FS) (p : string) (bytes : string) : FS :=
  mkFS (<[p := FData bytes]> (files fs)) (dirs fs).

End Os.

(** ** entities/MuRET: the object graph *)

(** A bounding box is an object of the store; [ref] is its address. *)
Abbreviation ref := nat.

Module AgnosticSymbol.
Record t := mk {
  agnostic_symbol_type : string;
  position_in_staff : string;
  bounding_box : option ref;
  approximate_x : pyval
}.
End AgnosticSymbol.

Module Region.
Record t := mk {
  type : string;
  bounding_box : ref;
  semantic_encoding : pyval;
  symbols : list AgnosticSymbol.t
}.
End Region.

Module Page.
Record t := mk {
  bounding_box : ref;
  regions : list Region.t
}.
End Page.

Module Image.
Record t := mk {
  ID : pyval;
  url : pyval;
  filename : pyval;
  pages : list Page.t
}.
End Image.

Inductive ObjectsToDetectKind := REGIONS | SYMBOLS_IN_REGIONS | SYMBOLS_IN_IMAGES.

(** ** entities/MuRET/Package.py *)

Record DatasetFile := mkDatasetFile {
  folder_structure : option string;
  name : string;
  json_contents : pyval
}.

(** Reading files: the state is the list of the paths opened so far. *)
Definition IO (A : Type) : Type := list string → result A * list string.

#[global] Instance IO_ret : MRet IO := λ A x log, (Ok x, log).
#[global] Instance IO_bind : MBind IO := λ A B f m log,
  match m log with
  | (Ok x, log') => f x log'
  | (Raise e, log') => (Raise e, log')
  end.

Module Io.

Definition lift {A} (r : result A) : IO A := λ log, (r, log).

(** [open(p).read()] followed by [json.loads]. *)
Definition read_json (fs : FS) (p : string) : IO pyval := λ log,
  match files fs !! p with
  | None => (Raise (IOError ("No such file or directory: '" +:+ p +:+ "'")), log)
  | Some (FData _) => (Raise JSONDecodeError, log ++ [p])
  | Some (FJson v) => (Ok v, log ++ [p])
  end.

End Io.

Module DictionaryJson.

(** [Dictionary.from_json]. *)
Definition from_json (fs : FS) (dictionary_json_file root_element : string) : IO Dictionary :=
  json_object ← Io.read_json fs dictionary_json_file;
  present ← Io.lift (Py.has_key root_element json_object);
  if negb present then
    Io.lift (Raise (MuRETException ("No root element named " +:+ root_element +:+ "'")))
  else
    label_list ← Io.lift (Py.getitem json_object (VStr root_element));
    items ← Io.lift (Py.iter label_list);
    labels ← Io.lift (mapM Py.as_str items);
    Io.lift (Dictionary.init labels).

End DictionaryJson.

Module PackageFilesLoader.

(** [PackageFilesLoader._load_json]. *)
Definition _load_json (fs : FS) (folder_structure : option string) (json_file : string)
  : IO DatasetFile :=
  contents ← Io.read_json fs json_file;
  let absolute_path_without_extension := Os.splitext_root json_file in
  let tail := (Os.split absolute_path_without_extension).2 in
  mret (mkDatasetFile folder_structure tail contents).

(** [root[prefix_length:]]. *)
Definition drop_prefix (prefix_length : nat) (root : string) : string :=
  substring prefix_length (String.length root - prefix_length) root.

(** [PackageFilesLoader._load_folder]; the tasks of the pool run in the
    order in which they are submitted, and the listing stops at the first
    file that cannot be read, as the loop over the futures does. *)
Definition _load_folder (fs : FS) (folderPath : string) : IO (list DatasetFile) :=
  let prefix_length := (String.length folderPath + 1)%nat in
  mapM (λ '(root, fname), _load_json fs (Some (drop_prefix prefix_length root)) fname)
       (filter (λ '(_, fname), Os.endswith fname ".json" = true) (Os.walk fs folderPath)).

(** The order of [attrgetter('folder_structure', 'name')]; a listing of
    a folder has no [None] structure. *)
Definition key_le (x y : DatasetFile) : Prop :=
  let fx := default "" (folder_structure x) in
  let fy := default "" (folder_structure y) in
  match String.compare fx fy with
  | Lt => True
  | Gt => False
  | Eq => String.leb (name x) (name y) = true
  end.

#[global] Instance key_le_dec x y : Decision (key_le x y).
Proof. unfold key_le. destruct (String.compare _ _); apply _. Defined.

(** [PackageFilesLoader.load]. *)
Definition load (fs : FS) (inputPath : string) : IO (list DatasetFile) :=
  if negb (Os.exists_ fs inputPath) then
    Io.lift (Raise (IOError ("File or folder '" +:+ inputPath +:+ "' does not exist")))
  else
    files ← (if Os.isdir fs inputPath then _load_folder fs inputPath
             else f ← _load_json fs None inputPath; mret [f]);
    mret (merge_sort key_le files).

End PackageFilesLoader.

(** The objects that the tasks of [Package.__init__] share: the three
    dictionaries of the package and the store of the bounding boxes. *)
Record Loader := mkLoader {
  region_types : Dictionary;
  agnostic_symbol_types : Dictionary;
  agnostic_positions_in_staff : Dictionary;
  boxes : list BoundingBox
}.

(** A step of a task: it may raise, and what it wrote stays written. *)
Definition M (A : Type) : Type := Loader → result A * Loader.

#[global] Instance M_ret : MRet M := λ A x s, (Ok x, s).
#[global] Instance M_bind : MBind M := λ A B f m s,
  match m s with
  | (Ok x, s') => f x s'
  | (Raise e, s') => (Raise e, s')
  end.

Module Load.

Definition lift {A} (r : result A) : M A := λ s, (r, s).

Definition raise {A} (e : exn) : M A := λ s, (Raise e, s).

Definition get {A} (f : Loader → A) : M A := λ s, (Ok (f s), s).

(** A new box object. *)
Definition alloc (box : BoundingBox) : M ref := λ s,
  (Ok (length (boxes s)),
   mkLoader (region_types s) (agnostic_symbol_types s) (agnostic_positions_in_staff s)
            (boxes s ++ [box])).

Definition add_region_type (label : string) : M unit := λ s,
  match Dictionary.add (region_types s) label with
  | Ok dict =>
      (Ok (), mkLoader dict (agnostic_symbol_types s) (agnostic_positions_in_staff s) (boxes s))
  | Raise e => (Raise e, s)
  end.

Definition add_agnostic_symbol_type (label : string) : M unit := λ s,
  match Dictionary.add (agnostic_symbol_types s) label with
  | Ok dict =>
      (Ok (), mkLoader (region_types s) dict (agnostic_positions_in_staff s) (boxes s))
  | Raise e => (Raise e, s)
  end.

Definition add_agnostic_position_in_staff (label : string) : M unit := λ s,
  match Dictionary.add (agnostic_positions_in_staff s) label with
  | Ok dict =>
      (Ok (), mkLoader (region_types s) (agnostic_symbol_types s) dict (boxes s))
  | Raise e => (Raise e, s)
  end.

(** [BoundingBox.from_MuRET]. *)
Definition from_MuRET (bbox : pyval) : M ref :=
  fromX ← lift (Py.getitem bbox (VStr "fromX"));
  fromY ← lift (Py.getitem bbox (VStr "fromY"));
  toX ← lift (Py.getitem bbox (VStr "toX"));
  toY ← lift (Py.getitem bbox (VStr "toY"));
  a ← lift (Py.as_num fromX);
  b ← lift (Py.as_num fromY);
  c ← lift (Py.as_num toX);
  d ← lift (Py.as_num toY);
  box ← lift (BoundingBox.init a b c d "pascal");
  alloc box.

(** The body of the loop over the symbols of a region. The two
    dictionaries that [read_file] receives as arguments are the ones of
    the package itself. *)
Definition read_symbol (symbol : pyval) : M AgnosticSymbol.t :=
  let muret_symbol_bounding_box := None in
  has_box ← lift (Py.has_key "bounding_box" symbol);
  muret_symbol_bounding_box ←
    (if has_box : bool then
       bbox ← lift (Py.getitem symbol (VStr "bounding_box"));
       l ← from_MuRET bbox;
       mret (Some l)
     else mret muret_symbol_bounding_box);
  let muret_symbol_approximate_x := VNone in
  has_x ← lift (Py.has_key "approximate_x" symbol);
  muret_symbol_approximate_x ←
    (if has_x : bool then lift (Py.getitem symbol muret_symbol_approximate_x)
     else mret muret_symbol_approximate_x);
  muret_agnostic_symbol_type ←
    lift (Py.getitem symbol (VStr "agnostic_symbol_type") ≫= Py.as_str);
  known ← get (λ s, Dictionary.contains (agnostic_symbol_types s) muret_agnostic_symbol_type);
  (if negb known then
     add_agnostic_symbol_type muret_agnostic_symbol_type;;
     raise (MuRETException ("Agnostic symbol type " +:+ dquote +:+ muret_agnostic_symbol_type
                              +:+ dquote +:+ " not found in dictionary. A new entry will be created."))
   else mret ());;
  muret_position_in_staff ←
    lift (Py.getitem symbol (VStr "position_in_staff") ≫= Py.as_str);
  known ← get (λ s, Dictionary.contains (agnostic_positions_in_staff s) muret_position_in_staff);
  (if negb known then
     add_agnostic_position_in_staff muret_position_in_staff;;
     raise (MuRETException ("Position in staff " +:+ dquote +:+ muret_position_in_staff
                              +:+ dquote +:+ " not found in dictionary. A new entry will be created."))
   else mret ());;
  mret (AgnosticSymbol.mk muret_agnostic_symbol_type muret_position_in_staff
                          muret_symbol_bounding_box muret_symbol_approximate_x).

(** The body of the loop over the regions of a page. *)
Definition read_region (region : pyval) : M Region.t :=
  region_bounding_box ← (lift (Py.getitem region (VStr "bounding_box")) ≫= from_MuRET);
  region_type ← lift (Py.getitem region (VStr "type") ≫= Py.as_str);
  let region_semantic_encoding := VNone in
  has_encoding ← lift (Py.has_key "semantic_encoding" region);
  region_semantic_encoding ←
    (if has_encoding : bool then lift (Py.getitem region (VStr "semantic_encoding"))
     else mret region_semantic_encoding);
  known ← get (λ s, Dictionary.contains (region_types s) region_type);
  (if negb known then
     add_region_type region_type;;
     raise (MuRETException ("Region type " +:+ dquote +:+ region_type +:+ dquote
                              +:+ " not found in dictionary. A new entry will be created."))
   else mret ());;
  has_symbols ← lift (Py.has_key "symbols" region);
  symbols ←
    (if has_symbols : bool then
       symbol_regions ← lift (Py.getitem region (VStr "symbols") ≫= Py.iter);
       mapM read_symbol symbol_regions
     else mret []);
  mret (Region.mk region_type region_bounding_box region_semantic_encoding symbols).

(** The body of the loop over the pages of a file. *)
Definition read_page (page : pyval) : M Page.t :=
  page_bounding_box ← (lift (Py.getitem page (VStr "bounding_box")) ≫= from_MuRET);
  has_regions ← lift (Py.has_key "regions" page);
  regions ←
    (if has_regions : bool then
       items ← lift (Py.getitem page (VStr "regions") ≫= Py.iter);
       mapM read_region items
     else mret []);
  mret (Page.mk page_bounding_box regions).

(** [Package.read_file]. *)
Definition read_file (file : DatasetFile) : M Image.t :=
  unique_id ← lift (Py.getitem (json_contents file) (VStr "id"));
  url ← lift (Py.getitem (json_contents file) (VStr "url"));
  filename ← lift (Py.getitem (json_contents file) (VStr "filename"));
  has_pages ← lift (Py.has_key "pages" (json_contents file));
  pages ←
    (if has_pages : bool then
       items ← lift (Py.getitem (json_contents file) (VStr "pages") ≫= Py.iter);
       mapM read_page items
     else mret []);
  mret (Image.mk unique_id url filename pages).

(** The tasks of the pool, one [read_file] per file: every task runs,
    whatever the others raise, each from the state the previous one left. *)
Fixpoint run_tasks (files : list DatasetFile) (s : Loader) : list (result Image.t) * Loader :=
  match files with
  | [] => ([], s)
  | file :: files' =>
      let '(r, s') := read_file file s in
      let '(rs, s'') := run_tasks files' s' in
      (r :: rs, s'')
  end.

(** The loop over [future.result()]: the first exception met leaves the
    constructor. *)
Fixpoint results (futures : list (result Image.t)) : result (list Image.t) :=
  match futures with
  | [] => Ok []
  | Ok muret_image :: futures' => images ← results futures'; Ok (muret_image :: images)
  | Raise e :: _ => Raise e
  end.

End Load.

Record Package := mkPackage {
  package_dictionaries : Loader;
  training_set_images : list Image.t
}.

Module Package.

(** [Package.__init__]. *)
Definition init (fs : FS) (folder : string) : IO Package :=
  if negb (Os.exists_ fs folder) then
    Io.lift (Raise (IOError ("Folder " +:+ folder +:+ " does not exist")))
  else
    let absolute_dictionary_file_name := Os.join folder "dictionary.json" in
    if negb (Os.exists_ fs absolute_dictionary_file_name) then
      Io.lift (Raise (IOError ("Dictionary file " +:+ absolute_dictionary_file_name
                                 +:+ " does not exist")))
    else
      region_types ←
        DictionaryJson.from_json fs absolute_dictionary_file_name "region_dictionary";
      agnostic_symbol_types ←
        DictionaryJson.from_json fs absolute_dictionary_file_name "agnostic_symbol_types";
      agnostic_positions_in_staff ←
        DictionaryJson.from_json fs absolute_dictionary_file_name "agnostic_positions_in_staff";
      let absolute_files := Os.join folder "files" in
      muret_trainingset_package_files ← PackageFilesLoader.load fs absolute_files;
      if bool_decide (length muret_trainingset_package_files = 0%nat) then
        Io.lift (Raise (MuRETException "Empty MuRET training set package"))
      else
        let '(futures, loader) :=
          Load.run_tasks muret_trainingset_package_files
            (mkLoader region_types agnostic_symbol_types agnostic_positions_in_staff []) in
        training_set_images ← Io.lift (Load.results futures);
        mret (mkPackage loader training_set_images).

End Package.

(** ** entities/YOLO/Object.py and entities/YOLO/Image.py *)

(** A step on the store of the bounding boxes. *)
Definition St (A : Type) : Type := list BoundingBox → result A * list BoundingBox.

#[global] Instance St_ret : MRet St := λ A x h, (Ok x, h).
#[global] Instance St_bind : MBind St := λ A B f m h,
  match m h with
  | (Ok x, h') => f x h'
  | (Raise e, h') => (Raise e, h')
  end.

Record Object := mkObject {
  label : nat;
  bounding_box : ref
}.

Module Object.

Definition lift {A} (r : result A) : St A := λ h, (r, h).

(** The box behind a reference; the references of the model are made by
    allocation, a dangling one has no Python counterpart. *)
Definition deref (l : ref) : St BoundingBox := λ h,
  match h !! l with
  | Some box => (Ok box, h)
  | None => (Raise TypeError, h)
  end.

Definition update (l : ref) (box : BoundingBox) : St unit := λ h, (Ok (), <[l := box]> h).

Definition alloc (box : BoundingBox) : St ref := λ h, (Ok (length h), h ++ [box]).

(** [self.bounding_box.resize(scale_factor)]: the box object itself is
    updated. *)
Definition resize_in_place (l : ref) (scale_factor : Q * Q) : St unit :=
  box ← deref l;
  update l (BoundingBox.resize box scale_factor).

(** [self.bounding_box.to(format, dims)] as an object: a conversion to
    the format the box already has returns the box itself, any other one
    a new box. *)
Definition to_ref (l : ref) (format : string) (img_dims : option Dimensions) : St ref :=
  box ← deref l;
  box' ← lift (BoundingBox.to box format img_dims);
  if String.eqb (current_format box) format then mret l
  else alloc box'.

(** [Object.preprocess]: the method updates the object; here the updated
    object is returned. *)
Definition preprocess (self : Object) (format : string) (img_dims resized_dims : Dimensions)
  : St Object :=
  sx ← lift (Num.truediv (width resized_dims) (width img_dims));
  sy ← lift (Num.truediv (height resized_dims) (height img_dims));
  let scale_factor := (sx, sy) in
  resize_in_place (bounding_box self) scale_factor;;
  l ← to_ref (bounding_box self) format (Some resized_dims);
  mret (mkObject (label self) l).

(** [Object.__str__]: [f'{self.label} {self.bounding_box}']. *)
Definition str (repr : Q → string) (h : list BoundingBox) (self : Object) : result string :=
  match h !! bounding_box self with
  | Some box => Ok (pretty (label self) +:+ " " +:+ BoundingBox.str repr box)
  | None => Raise TypeError
  end.

End Object.

Record ImageYOLO := mkImageYOLO {
  file_name : string;
  image_array : Dimensions;
  objects : list Object;
  img_dims : Dimensions
}.

Module ImageYOLO.

(** [Image.__init__]; of the pixel array the model keeps the shape. *)
Definition init (file_name : string) (image_array : Dimensions) (objects : list Object)
    (img_dims : Dimensions) : St ImageYOLO :=
  let resized_dims := mkDimensions (width image_array) (height image_array) in
  objects' ← mapM (λ obj, Object.preprocess obj "yolo" img_dims resized_dims) objects;
  mret (mkImageYOLO file_name image_array objects' img_dims).

(** ['\n'.join(lines)]. *)
Fixpoint join_lines (lines : list string) : string :=
  match lines with
  | [] => ""
  | [line] => line
  | line :: lines' => line +:+ String (ascii_of_nat 10) (join_lines lines')
  end.

(** [Image.__str__]. *)
Definition str (repr : Q → string) (h : list BoundingBox) (self : ImageYOLO) : result string :=
  lines ← mapM (Object.str repr h) (objects self);
  Ok (join_lines lines).

End ImageYOLO.

(** ** transcoders/MuRET2YOLO.py *)

(** What decoding the pixels of an image gives: the shape of the array
    after the resize and the size of the picture. *)
Record Pixels := mkPixels {
  array_shape : Dimensions;
  picture_size : Dimensions
}.

Module MuRET2YOLO.

(** [__create_object_to_detect_from_region]. *)
Definition create_object_to_detect_from_region (pkg : Loader) (region : Region.t)
  : result Object :=
  class_index ← Dictionary.index_of (region_types pkg) (Region.type region);
  Ok (mkObject class_index (Region.bounding_box region)).

Definition page_objects (pkg : Loader) (page_class_index : nat) (page : Page.t)
  : result (list Object) :=
  objs ← mapM (create_object_to_detect_from_region pkg)
              (filter (λ region, Region.type region ≠ "undefined") (Page.regions page));
  Ok (mkObject page_class_index (Page.bounding_box page) :: objs).

(** The [try] block of [__generate_full_image]. The method
    [__fill_objects_to_detect_in_region] that the second branch calls is
    not defined anywhere, so its first call raises. *)
Definition generate_full_image_body (pkg : Loader) (object_kind : ObjectsToDetectKind)
    (file_name : string) (representation : Image.t) (pixels : result Pixels) : St ImageYOLO :=
  px ← Object.lift pixels;
  page_class_index ← Object.lift (Dictionary.index_of (region_types pkg) "page");
  objects_to_detect ←
    Object.lift
      match object_kind with
      | REGIONS =>
          per_page ← mapM (page_objects pkg page_class_index) (Image.pages representation);
          Ok (List.concat per_page)
      | SYMBOLS_IN_IMAGES =>
          if bool_decide (List.concat (Page.regions <$> Image.pages representation) = []) then Ok []
          else Raise (AttributeError
            "'MuRET2YOLO' object has no attribute '_MuRET2YOLO__fill_objects_to_detect_in_region'")
      | SYMBOLS_IN_REGIONS => Ok []
      end;
  ImageYOLO.init file_name (array_shape px) objects_to_detect (picture_size px).

(** [__generate_full_image]: any exception is printed and the image is
    [None]; what was written to the boxes before stays written. *)
Definition generate_full_image (pkg : Loader) (object_kind : ObjectsToDetectKind)
    (file_name : string) (representation : Image.t) (pixels : result Pixels)
    (h : list BoundingBox) : option ImageYOLO * list BoundingBox :=
  match generate_full_image_body pkg object_kind file_name representation pixels h with
  | (Ok image, h') => (Some image, h')
  | (Raise _, h') => (None, h')
  end.

(** The label file of [__save_image]: its path and what is written. *)
Definition save_labels (repr : Q → string) (h : list BoundingBox) (image : ImageYOLO)
    (labels_folder : string) (fs : FS) : result FS :=
  text ← ImageYOLO.str repr h image;
  Ok (Os.write fs (Os.join labels_folder (file_name image +:+ ".txt")) text).

End MuRET2YOLO.

(** [__generate_dataYAML]: the text written to [dataset.yaml] and the
    indices that are returned; when a label has no index the text written
    so far stays in the file. *)
Record Indices := mkIndices {
  i2w : gmap nat string;
  w2i : gmap string nat
}.

Module DataYAML.

Definition nl : string := String (ascii_of_nat 10) EmptyString.

Definition heading (output_folder : string) : string :=
  "path: " +:+ output_folder +:+ nl
    +:+ "train: images/train" +:+ nl
    +:+ "val: images/validation" +:+ nl
    +:+ "test: images/test" +:+ nl
    +:+ nl
    +:+ "#Classes" +:+ nl
    +:+ "names:" +:+ nl.

(** The line of a class. *)
Definition class_line (index : nat) (label : string) : string :=
  "  " +:+ pretty index +:+ ": " +:+ label +:+ nl.

(** The loop over [dictionary.label_list]. *)
Fixpoint names (dictionary : Dictionary) (labels : list string) (text : string)
    (indices : Indices) : result Indices * string :=
  match labels with
  | [] => (Ok indices, text)
  | label :: labels' =>
      match Dictionary.index_of dictionary label with
      | Ok index =>
          names dictionary labels' (text +:+ class_line index label)
                (mkIndices (<[index := label]> (i2w indices)) (<[label := index]> (w2i indices)))
      | Raise e => (Raise e, text)
      end
  end.

(** [self.isStaffWise], set by [EncodingTranscoder.__init__]. *)
Definition isStaffWise (object_kind : ObjectsToDetectKind) : bool :=
  match object_kind with
  | SYMBOLS_IN_REGIONS => true
  | _ => false
  end.

Definition generate_dataYAML (pkg : Loader) (object_kind : ObjectsToDetectKind)
    (output_folder : string) : result Indices * string :=
  let dictionary :=
    if isStaffWise object_kind then region_types pkg else agnostic_symbol_types pkg in
  names dictionary (label_list dictionary) (heading output_folder) (mkIndices ∅ ∅).

End DataYAML.

(** ** utils/data.py *)

Record Splits := mkSplits { train : Q; validation : Q; test : Q }.

Module PartitionManager.

(** The position that a bound of a Python slice denotes in a list of
    length [n]: a negative bound counts from the end, and every bound is
    brought into [0..n]. *)
Definition bound (n : Z) (i : Z) : Z :=
  let i' := if (i <? 0)%Z then (i + n)%Z else i in
  Z.max 0 (Z.min n i').

(** [l[lo:hi]]. *)
Definition slice {A} (l : list A) (lo hi : option Z) : list A :=
  let n := Z.of_nat (length l) in
  let start := from_option (bound n) 0%Z lo in
  let stop := from_option (bound n) n hi in
  take (Z.to_nat (stop - start)) (drop (Z.to_nat start) l).

(** [PartitionManager.partition]; [repr] gives the text of a number in
    the message. *)
Definition partition {A} (repr : Q → string) (dataset : list A) (splits : Splits)
  : result (list A * list A * list A) :=
  let sum_split := Num.round (train splits + validation splits + test splits) 2 in
  if negb (Qeq_bool sum_split 1) then
    Raise (MuRETException ("The sum of all splits should be 1, and it is " +:+ repr sum_split))
  else
    let idx_split_1 := Num.floor (inject_Z (Z.of_nat (length dataset)) * train splits) in
    let idx_split_2 :=
      (idx_split_1 + Num.floor (inject_Z (Z.of_nat (length dataset)) * validation splits))%Z in
    let train_list := slice dataset None (Some idx_split_1) in
    let validation_list := slice dataset (Some idx_split_1) (Some idx_split_2) in
    let test_list := slice dataset (Some idx_split_2) None in
    Ok (train_list, validation_list, test_list).

End PartitionManager.

(** ** utils/image.py *)

(** The disk and the requests sent to the network so far. *)
Record World := mkWorld {
  disk : FS;
  fetched : list string
}.

Definition Net (A : Type) : Type := World → result A * World.

#[global] Instance Net_ret : MRet Net := λ A x w, (Ok x, w).
#[global] Instance Net_bind : MBind Net := λ A B f m w,
  match m w with
  | (Ok x, w') => f x w'
  | (Raise e, w') => (Raise e, w')
  end.

Record RemoteImage := mkRemoteImage {
  representation : Image.t;
  url : pyval;
  cache_files_folder : option string;
  cropped_files_folder : option string;
  images_cache : option string;
  remote_file_name : option string;
  disk_file_name : option string
}.

Section RemoteImage.

(** [sha256(data).hexdigest()]. *)
Variable sha256_hexdigest : string → string.

(** What the server answers to a request for a URL, if it answers. *)
Variable network : string → option string.

Definition net_lift {A} (r : result A) : Net A := λ w, (r, w).

Definition net_exists (p : string) : Net bool := λ w, (Ok (Os.exists_ (disk w) p), w).

Definition net_makedirs (p : string) : Net unit := λ w,
  (Ok (), mkWorld (Os.makedirs (disk w) p) (fetched w)).

Definition net_write (p bytes : string) : Net unit := λ w,
  (Ok (), mkWorld (Os.write (disk w) p bytes) (fetched w)).

(** One request to the network. *)
Definition net_fetch (u : string) : Net (option string) := λ w,
  (Ok (network u), mkWorld (disk w) (fetched w ++ [u])).

(** [self.url.encode()] needs a string. *)
Definition url_text (u : pyval) : result string :=
  match u with
  | VStr s => Ok s
  | _ => Raise (AttributeError "object has no attribute 'encode'")
  end.

(** [AbstractImage._get_local_filename]. *)
Definition _get_local_filename (u : pyval) (char_limit : nat) : result string :=
  s ← url_text u;
  Ok (substring 0 char_limit (sha256_hexdigest s)).

(** The path of the cached file of a URL: [disk_file_name]. *)
Definition cache_path (cache u : string) : string :=
  Os.join (Os.join cache "images") (substring 0 13 (sha256_hexdigest u)).

(** [RemoteImage.__download_url_image]: the content, or [None] when the
    request fails; the failure is logged and not raised. *)
Definition download_url_image (u : string) : Net (option string) := net_fetch u.

(** [RemoteImage.__init__] (with [AbstractImage.__init__]). *)
Definition RemoteImage_init (representation : option Image.t) (cache_files_folder : option string)
  : Net RemoteImage :=
  match representation with
  | None => net_lift (Raise (ValueError "Representation cannot be None"))
  | Some representation =>
      let url := Image.url representation in
      match cache_files_folder with
      | None =>
          mret (mkRemoteImage representation url None None None None None)
      | Some cache =>
          let cropped_files_folder := Os.join cache "cropped" in
          net_makedirs cropped_files_folder;;
          let images_cache := Os.join cache "images" in
          file_name ← net_lift (_get_local_filename url 13);
          let disk_file_name := Os.join images_cache file_name in
          cache_there ← net_exists images_cache;
          (if negb cache_there then net_makedirs images_cache else mret ());;
          file_there ← net_exists disk_file_name;
          (if negb file_there then
             u ← net_lift (url_text url);
             content ← download_url_image u;
             match content with
             | Some bytes =>
                 if negb (String.eqb bytes "") then net_write disk_file_name bytes
                 else net_lift (Raise (Exception "Cannot retrieve image"))
             | None => net_lift (Raise (Exception "Cannot retrieve image"))
             end
           else mret ());;
          mret (mkRemoteImage representation url (Some cache) (Some cropped_files_folder)
                              (Some images_cache) (Some file_name) (Some disk_file_name))
      end
  end.

(** [RemoteImage._get_content]: the bytes that are decoded as a picture. *)
Definition _get_content (self : RemoteImage) : Net string :=
  match disk_file_name self with
  | None =>
      u ← net_lift (url_text (url self));
      content ← net_fetch u;
      match content with
      | Some bytes => mret bytes
      | None => net_lift (Raise (Exception "Cannot retrieve image"))
      end
  | Some p => λ w,
      match files (disk w) !! p with
      | Some (FData bytes) => (Ok bytes, w)
      | _ => (Raise (IOError ("No such file or directory: '" +:+ p +:+ "'")), w)
      end
  end.

End RemoteImage.

(** ** utils/image_tools.py *)

(** Of a picture the model keeps the size, width first. *)
Section NumpyGrayscaleImageTranscoder.

(** Pillow's [Image.resize]: the picture it makes of a picture for a
    target size, or its error. *)
Variable pil_resize : Z * Z → Z * Z → result (Z * Z).

(** [NumpyGrayscaleImageTranscoder.encode]: the picture that is turned
    into the array. *)
Definition encode (pil_image : Z * Z) (width height : option Z) : result (Z * Z) :=
  let resized_img := pil_image in
  let width := default pil_image.1 width in
  let height := default pil_image.2 height in
  if (width <=? 0)%Z && (height <=? 0)%Z then
    Raise (ValueError "Width and height must be positive")
  else
    if negb (pil_image.1 =? width)%Z || negb (pil_image.2 =? height)%Z then
      pil_resize resized_img (width, height)
    else Ok resized_img.

(** [NumpyGrayscaleImageTranscoder.encode_cropped]; [Image.crop] gives a
    picture of the size of the box. *)
Definition encode_cropped (pil_image : Z * Z) (from_x from_y to_x to_y : Z) : result (Z * Z) :=
  if (from_x >=? to_x)%Z || (from_y >=? to_y)%Z then
    Raise (ValueError "Resulting crop must have positive dimensions")
  else if (from_x <? 0)%Z || (from_y <? 0)%Z || (to_x <? 0)%Z || (to_y <? 0)%Z then
    Raise (ValueError "Crop coordinates must be positive")
  else if (from_x >=? pil_image.1)%Z || (from_y >=? pil_image.2)%Z
          || (to_x >=? pil_image.1)%Z || (to_y >=? pil_image.2)%Z then
    Raise (ValueError "Coordinates must not exceed the image dimensions")
  else
    let cropped_img := ((to_x - from_x)%Z, (to_y - from_y)%Z) in
    encode cropped_img None None.

End NumpyGrayscaleImageTranscoder.

(** ** transcoders/IIIF2Muret.py *)

Module RepertoriumIIIF2Muret.

(** [min] and [max] of the numbers a generator gives: the first of the
    smallest, the first of the largest. The text of the error for an
    empty one is that of Python 3.12. *)
Definition py_min (xs : list Q) : result Q :=
  match xs with
  | [] => Raise (ValueError "min() iterable argument is empty")
  | x :: xs' => Ok (foldl (λ best y, if Qlt_le_dec y best then y else best) x xs')
  end.

Definition py_max (xs : list Q) : result Q :=
  match xs with
  | [] => Raise (ValueError "max() iterable argument is empty")
  | x :: xs' => Ok (foldl (λ best y, if Qlt_le_dec best y then y else best) x xs')
  end.

(** [point[k]] for a point of a polygon, an object whose values are
    numbers. *)
Definition coordinate (k : string) (point : gmap string Q) : result Q :=
  match point !! k with
  | Some x => Ok x
  | None => Raise (KeyError (VStr k))
  end.

(** [__bounding_box_from_polygon]. *)
Definition bounding_box_from_polygon (polygon : list (gmap string Q)) : result pyval :=
  min_x ← mapM (coordinate "x") polygon ≫= py_min;
  min_y ← mapM (coordinate "y") polygon ≫= py_min;
  max_x ← mapM (coordinate "x") polygon ≫= py_max;
  max_y ← mapM (coordinate "y") polygon ≫= py_max;
  Ok (VDict (list_to_map [("fromX", VNum min_x); ("fromY", VNum min_y);
                          ("toX", VNum max_x); ("toY", VNum max_y)])).

End RepertoriumIIIF2Muret.

(** ** The text of a number *)

Module Repr.

Fixpoint strip_zeros (digits : list ascii) : list ascii :=
  match digits with
  | [] => []
  | ch :: digits' => if Ascii.eqb ch "0" then strip_zeros digits' else digits
  end.

(** The decimals of a count of hundred-thousandths: five digits, the
    zeros at the end removed, one digit at least. *)
Definition decimals (count : Z) : string :=
  let digits := list_ascii_of_string (pretty count) in
  let padded := replicate (5 - length digits) ("0"%char) ++ digits in
  match reverse (strip_zeros (reverse padded)) with
  | [] => "0"
  | kept => string_of_list_ascii kept
  end.

(** [repr(x)] for a float [x] with five decimals at most, as [round(_, 5)]
    returns them, below [1e16]: the shortest text that reads back as [x],
    with an exponent below [0.0001]. *)
Definition float5 (x : Q) : string :=
  let n := Num.round_half_even (x * inject_Z (Num.pow10 5)) in
  let sign := if (n <? 0)%Z then "-" else "" in
  let m := Z.abs n in
  if (m =? 0)%Z then "0.0"
  else if (m <? 10)%Z then sign +:+ pretty m +:+ "e-05"
  else sign +:+ pretty (m / 100000)%Z +:+ "." +:+ decimals (m mod 100000)%Z.

End Repr.

(** ** Small packages *)

Module Demo.

Definition box (x1 y1 x2 y2 : Q) : pyval :=
  VDict (list_to_map [("fromX", VNum x1); ("fromY", VNum y1); ("toX", VNum x2); ("toY", VNum y2)]).

(** The content of a [dictionary.json] with the three root keys. *)
Definition dictionary : pyval :=
  VDict (list_to_map
    [("region_dictionary", VList [VStr "page"; VStr "staff"]);
     ("agnostic_symbol_types", VList [VStr "clef.G"]);
     ("agnostic_positions_in_staff", VList [VStr "L2"])]).

(** A [dictionary.json] without [agnostic_symbol_types]. *)
Definition dictionary_without_symbol_types : pyval :=
  VDict (list_to_map
    [("region_dictionary", VList [VStr "page"; VStr "staff"]);
     ("agnostic_positions_in_staff", VList [VStr "L2"])]).

(** A symbol record with known labels and, maybe, other keys. *)
Definition symbol (extra : list (string * pyval)) : pyval :=
  VDict (list_to_map
    ([("agnostic_symbol_type", VStr "clef.G"); ("position_in_staff", VStr "L2")] ++ extra)).

Definition region (type : string) (symbols : list pyval) : pyval :=
  VDict (list_to_map
    [("type", VStr type); ("bounding_box", box 10 10 90 190); ("symbols", VList symbols)]).

(** The record of an image with one page. *)
Definition image (regions : list pyval) : pyval :=
  VDict (list_to_map
    [("id", VNum 1); ("url", VStr "http://example.org/1.jpg"); ("filename", VStr "1.jpg");
     ("pages", VList [VDict (list_to_map
        [("bounding_box", box 0 0 100 200); ("regions", VList regions)])])]).

(** The folder [pkg] with a dictionary and the given files. *)
Definition package (dictionary : pyval) (data : list (string * pyval)) : FS :=
  mkFS (list_to_map (("pkg/dictionary.json", FJson dictionary) :: (prod_map id FJson <$> data)))
       (list_to_set ["pkg"; "pkg/files"]).

(** The dictionaries that [dictionary] gives, before any file is read. *)
Definition region_types : Dictionary :=
  mkDictionary ["page"; "staff"] (list_to_map [("page", 0%nat); ("staff", 1%nat)]).

Definition symbol_types : Dictionary :=
  mkDictionary ["clef.G"] (list_to_map [("clef.G", 0%nat)]).

Definition positions : Dictionary :=
  mkDictionary ["L2"] (list_to_map [("L2", 0%nat)]).

Definition loader : Loader := mkLoader region_types symbol_types positions [].

(** A stand-in for [sha256] in the examples: any function with results
    of 64 characters does. *)
Definition digest (data : string) : string :=
  "9f86d081884c7d659a2feaa0c55ad015a3bf4f1b2b0b822cd15d6c15b0f00a08".

End Demo.



(** ** Notions used in the properties *)


(** The labels of a list in the order in which they are first seen. *)
Fixpoint first_occurrences (labels : list string) : list string :=
  match labels with
  | [] => []
  | x :: labels' => x :: filter (λ y, y ≠ x) (first_occurrences labels')
  end.

(** The two halves of a dictionary agree: the list has no duplicate, and
    the inverted map sends a label to the position it has in the list. *)
Definition consistent (dict : Dictionary) : Prop :=
  NoDup (label_list dict)
  ∧ ∀ L i, inverted dict !! L = Some i ↔ label_list dict !! i = Some L.

(** ** The listing of a folder *)

(** The JSON files that the listing of a folder reaches. *)
Definition json_entries (fs : FS) (folderPath : string) : list (string * string) :=
  filter (λ '(_, fname), Os.endswith fname ".json" = true) (Os.walk fs folderPath).

(** What [_load_json] makes of an entry of the listing. *)
Definition loaded_from (fs : FS) (folderPath : string) (entry : string * string)
    (file : DatasetFile) : Prop :=
  files fs !! entry.2 = Some (FJson (json_contents file))
  ∧ folder_structure file
    = Some (PackageFilesLoader.drop_prefix (String.length folderPath + 1) entry.1)
  ∧ name file = (Os.split (Os.splitext_root entry.2)).2.

(** ** The objects of a full image *)

(** What [__generate_full_image] looks for in an image when regions are
    detected, page by page: the page itself, then its regions whose type
    is not 'undefined'; each with the box it has in the graph. *)
Definition detected (representation : Image.t) : list (string * ref) :=
  page ← Image.pages representation;
  ("page", Page.bounding_box page)
    :: ((λ region, (Region.type region, Region.bounding_box region))
          <$> filter (λ region, Region.type region ≠ "undefined") (Page.regions page)).

(** ** The classes of a data set *)

(** The lines of the classes in [dataset.yaml], numbered from [start]. *)
Fixpoint class_lines (start : nat) (labels : list string) : string :=
  match labels with
  | [] => ""
  | label :: labels' => DataYAML.class_line start label +:+ class_lines (S start) labels'
  end.

(** The box of a polygon as the JSON object that is written. *)
Definition polygon_box (min_x min_y max_x max_y : Q) : pyval :=
  VDict (list_to_map [("fromX", VNum min_x); ("fromY", VNum min_y);
                      ("toX", VNum max_x); ("toY", VNum max_y)]).

(** ** What a successful read leaves *)

(** From [s] to [s'] the dictionaries are the same and the store has only
    got new boxes at its end. *)
Definition grows (s s' : Loader) : Prop :=
  region_types s' = region_types s
  ∧ agnostic_symbol_types s' = agnostic_symbol_types s
  ∧ agnostic_positions_in_staff s' = agnostic_positions_in_staff s
  ∧ ∃ new_boxes, boxes s' = boxes s ++ new_boxes.

(** The reference names a pascal box of the store. *)
Definition pascal_box_at (s : Loader) (l : ref) : Prop :=
  ∃ box, boxes s !! l = Some box ∧ current_format box = "pascal".

(** The labels of the entity are in the dictionaries of [s] and its boxes
    are pascal boxes of the store of [s]. *)
Definition known_symbol (s : Loader) (symbol : AgnosticSymbol.t) : Prop :=
  Dictionary.contains (agnostic_symbol_types s) (AgnosticSymbol.agnostic_symbol_type symbol) = true
  ∧ Dictionary.contains (agnostic_positions_in_staff s) (AgnosticSymbol.position_in_staff symbol)
    = true
  ∧ (∀ l, AgnosticSymbol.bounding_box symbol = Some l → pascal_box_at s l).

Definition known_region (s : Loader) (region : Region.t) : Prop :=
  Dictionary.contains (region_types s) (Region.type region) = true
  ∧ pascal_box_at s (Region.bounding_box region)
  ∧ Forall (known_symbol s) (Region.symbols region).

Definition known_page (s : Loader) (page : Page.t) : Prop :=
  pascal_box_at s (Page.bounding_box page)
  ∧ Forall (known_region s) (Page.regions page).

Definition known_image (s : Loader) (image : Image.t) : Prop :=
  Forall (known_page s) (Image.pages image).

(** ** What a step on the store may change *)

(** The boxes of [h] are still in [h'], each with the format it had. *)
Definition same_tags (h h' : list BoundingBox) : Prop :=
  ∀ l box, h !! l = Some box →
    ∃ box', h' !! l = Some box' ∧ current_format box' = current_format box.

(** The graph of [Demo.image] with one region, as [read_file] builds it in
    an empty store: the box of the page is object 0, the one of the region
    object 1. *)
Definition demo_graph : Image.t :=
  Image.mk (VNum 1) (VStr "http://example.org/1.jpg") (VStr "1.jpg")
           [Page.mk 0%nat [Region.mk "staff" 1%nat VNone []]].

Definition demo_store : list BoundingBox :=
  [mkBoundingBox 0 0 100 200 "pascal"; mkBoundingBox 10 10 90 190 "pascal"].

(** The character that ends a line. *)
Definition newline : string := String (ascii_of_nat 10) EmptyString.

(** The text of a row of a label file. *)
Definition label_row (repr : Q → string) (class_index : nat) (box : BoundingBox) : string :=
  pretty class_index +:+ " " +:+ repr (a box) +:+ " " +:+ repr (b box)
    +:+ " " +:+ repr (c box) +:+ " " +:+ repr (d box).

(** What decoding the picture of [demo_graph] gives, without a resize and
    with a resize to half the size. *)
Definition demo_pixels : Pixels := mkPixels (mkDimensions 100 200) (mkDimensions 100 200).

Definition demo_pixels_halved : Pixels := mkPixels (mkDimensions 50 100) (mkDimensions 100 200).

(** * Properties *)

(** ** Tactics *)

(** Case analysis on the results that a step of a monad of the model
    examines, without and with the equations. *)
Ltac case_result :=
  repeat match goal with
    | |- context [match ?x with Ok _ => _ | Raise _ => _ end] => destruct x
    | |- context [let (_, _) := ?x in _] => destruct x
    | |- context [if ?x then _ else _] => destruct x
    end.

Ltac case_io :=
  repeat match goal with
    | |- context [match ?x with Ok _ => _ | Raise _ => _ end] => destruct x eqn:?
    | |- context [let (_, _) := ?x in _] => destruct x eqn:?
    | |- context [if ?x then _ else _] => destruct x eqn:?
    end.

(** The binds of the loader, of the store and of the image cache. *)
Ltac unfold_M :=
  unfold mbind, M_bind, Load.lift, Load.get, Load.raise, mret, M_ret.

Ltac unfold_St :=
  unfold mbind, St_bind, Object.lift, Object.deref, Object.update, Object.alloc, mret, St_ret.

Ltac unfold_Net :=
  unfold download_url_image;
  unfold mbind, Net_bind, net_lift, net_exists, net_makedirs, net_write, net_fetch,
    mret, Net_ret.

(** ** Checks of the model on small inputs *)

Example float5_half : Repr.float5 (1 # 2) = "0.5".
Proof. vm_compute. reflexivity. Qed.

Example float5_one : Repr.float5 1 = "1.0".
Proof. vm_compute. reflexivity. Qed.

Example float5_small : Repr.float5 (3 # 100000) = "3e-05".
Proof. vm_compute. reflexivity. Qed.

Example float5_digits : Repr.float5 (1204 # 100000) = "0.01204".
Proof. vm_compute. reflexivity. Qed.

Example split_path : Os.split "pkg/files/a/x.json" = ("pkg/files/a", "x.json").
Proof. vm_compute. reflexivity. Qed.

Example splitext_json : Os.splitext_root "pkg/files/a/x.v2.json" = "pkg/files/a/x.v2".
Proof. vm_compute. reflexivity. Qed.

Example splitext_hidden : Os.splitext_root "pkg/files/.json" = "pkg/files/.json".
Proof. vm_compute. reflexivity. Qed.

Example join_plain : Os.join "pkg" "dictionary.json" = "pkg/dictionary.json".
Proof. vm_compute. reflexivity. Qed.

Example slice_negative : PartitionManager.slice [1; 2; 3; 4]%nat None (Some (-1)%Z) = [1; 2; 3]%nat.
Proof. vm_compute. reflexivity. Qed.

Example round_ties_to_even :
  Num.round_half_even (5 # 2) = 2%Z ∧ Num.round_half_even (7 # 2) = 4%Z
  ∧ Num.round_half_even (-(5 # 2)) = (-2)%Z.
Proof. vm_compute. auto. Qed.

(** ** Bounding boxes *)

Section Rounding.

Local Open Scope Q_scope.

Lemma round_half_even_error (x : Q) :
  Qabs (inject_Z (Num.round_half_even x) - x) <= 1 # 2.
Proof.
  unfold Num.round_half_even.
  pose proof (Qfloor_le x) as Hlo.
  pose proof (Qlt_floor x) as Hhi.
  rewrite inject_Z_plus in Hhi. change (inject_Z 1) with 1 in Hhi.
  apply Qabs_Qle_condition.
  destruct (Qcompare_spec (x - inject_Z (Qfloor x)) (1 # 2)) as [He | Hl | Hg].
  - destruct (Z.even (Qfloor x)); rewrite ?inject_Z_plus;
      change (inject_Z 1) with 1; split; lra.
  - split; lra.
  - rewrite inject_Z_plus. change (inject_Z 1) with 1. split; lra.
Qed.


Lemma round2_error (x : Q) : Qabs (Num.round x 2 - x) <= 1 # 200.
Proof.
  unfold Num.round.
  change (inject_Z (Num.pow10 2)) with (100 # 1).
  pose proof (round_half_even_error (x * (100 # 1))) as H.
  unfold Qdiv. change (/ (100 # 1)) with (1 # 100).
  apply Qabs_Qle_condition in H. apply Qabs_Qle_condition.
  destruct H as [H1 H2]. split; lra.
Qed.



End Rounding.

Section RoundTrip.

Local Open Scope Q_scope.


Lemma to_supported (self : BoundingBox) (img_dims : option Dimensions) :
  BoundingBox.to self "yolo" img_dims = BoundingBox.to_yolo self img_dims
  ∧ BoundingBox.to self "coco" img_dims = BoundingBox.to_coco self img_dims
  ∧ BoundingBox.to self "pascal" img_dims = BoundingBox.to_pascal self img_dims.
Proof. repeat split. Qed.





(** The tolerance grows with the image: for a side of 3 pixels the first
    corner of the box [0..1] comes back [1.5e-5] away. *)
Example roundtrip_error_scales :
  ∃ y p,
    BoundingBox.to (mkBoundingBox 0 0 1 1 "pascal") "yolo" (Some (mkDimensions 3 3)) = Ok y
    ∧ BoundingBox.to y "pascal" (Some (mkDimensions 3 3)) = Ok p
    ∧ a p - 0 == 15 # 1000000.
Proof. eexists _, _. split; [reflexivity |]. split; reflexivity. Qed.

End RoundTrip.

Section Dispatch.

Lemma getattr_unsupported (format : string) :
  format ∉ SUPPORTED_OD_FORMATS →
  BoundingBox.getattr ("to_" +:+ format)
  = Raise (AttributeError ("'BoundingBox' object has no attribute 'to_" +:+ format +:+ "'")).
Proof.
  intros Hout. unfold BoundingBox.getattr, BoundingBox.to_methods. simpl.
  change ("" +:+ format) with format.
  destruct (String.eqb_spec format "yolo") as [-> | _].
  { exfalso. apply Hout. unfold SUPPORTED_OD_FORMATS. set_solver. }
  destruct (String.eqb_spec format "coco") as [-> | _].
  { exfalso. apply Hout. unfold SUPPORTED_OD_FORMATS. set_solver. }
  destruct (String.eqb_spec format "pascal") as [-> | _].
  { exfalso. apply Hout. unfold SUPPORTED_OD_FORMATS. set_solver. }
  reflexivity.
Qed.

(** C10. The format is checked by the constructor only. For a format
    outside yolo, coco and pascal the constructor raises its
    [ValueError], while [to] fails in the lookup of the attribute
    [to_<format>] with an [AttributeError]; the constructor accepts the
    three supported formats, and for each of them [to] is the conversion
    of that name. *)
Theorem to_dispatches_by_attribute_name
    (self : BoundingBox) (format : string) (img_dims : option Dimensions) (x1 x2 x3 x4 : Q) :
  format ∉ SUPPORTED_OD_FORMATS →
  BoundingBox.init x1 x2 x3 x4 format
  = Raise (ValueError ("Unsupported format '" +:+ format
                         +:+ "', must be one of ['yolo', 'coco', 'pascal']"))
  ∧ BoundingBox.to self format img_dims
    = Raise (AttributeError ("'BoundingBox' object has no attribute 'to_" +:+ format +:+ "'"))
  ∧ (∀ supported, supported ∈ SUPPORTED_OD_FORMATS →
       BoundingBox.init x1 x2 x3 x4 supported = Ok (mkBoundingBox x1 x2 x3 x4 supported))
  ∧ BoundingBox.to self "yolo" img_dims = BoundingBox.to_yolo self img_dims
  ∧ BoundingBox.to self "coco" img_dims = BoundingBox.to_coco self img_dims
  ∧ BoundingBox.to self "pascal" img_dims = BoundingBox.to_pascal self img_dims.
Proof.
  intros Hout. split; [| split; [| split]].
  - unfold BoundingBox.init. rewrite bool_decide_eq_false_2 by exact Hout. reflexivity.
  - unfold BoundingBox.to. rewrite getattr_unsupported by exact Hout. reflexivity.
  - intros supported Hin. unfold BoundingBox.init.
    rewrite bool_decide_eq_true_2 by exact Hin. reflexivity.
  - apply to_supported.
Qed.

Lemma to_dispatches_by_attribute_name_witness :
  ("voc" ∉ SUPPORTED_OD_FORMATS)
  ∧ BoundingBox.init 0 0 1 1 "voc"
    = Raise (ValueError "Unsupported format 'voc', must be one of ['yolo', 'coco', 'pascal']")
  ∧ BoundingBox.to (mkBoundingBox 0 0 1 1 "pascal") "voc" None
    = Raise (AttributeError "'BoundingBox' object has no attribute 'to_voc'").
Proof.
  assert (Hout : "voc" ∉ SUPPORTED_OD_FORMATS).
  { intros Hin. apply (bool_decide_pack _) in Hin. vm_compute in Hin. exact Hin. }
  split; [exact Hout |].
  destruct (to_dispatches_by_attribute_name (mkBoundingBox 0 0 1 1 "pascal") "voc" None
              0 0 1 1 Hout) as (Hinit & Hto & _).
  split; [exact Hinit | exact Hto].
Defined.

End Dispatch.

(** ** The dictionary *)

Section DictionaryFacts.

Lemma list_index_fresh (x : string) (l : list string) :
  x ∉ l → Dictionary.list_index x (l ++ [x]) = Some (length l).
Proof.
  induction l as [| y l IH]; intros Hx; simpl.
  - rewrite String.eqb_refl. reflexivity.
  - apply not_elem_of_cons in Hx as [Hxy Hx].
    destruct (String.eqb_spec y x) as [-> | _]; [congruence |].
    rewrite IH by exact Hx. reflexivity.
Qed.

Lemma add_present (dict : Dictionary) (L : string) :
  L ∈ label_list dict → Dictionary.add dict L = Ok dict.
Proof.
  intros Hin. unfold Dictionary.add. rewrite bool_decide_eq_true_2 by exact Hin. reflexivity.
Qed.

Lemma add_fresh (dict : Dictionary) (L : string) :
  L ∉ label_list dict →
  Dictionary.add dict L
  = Ok (mkDictionary (label_list dict ++ [L]) (<[L := length (label_list dict)]> (inverted dict))).
Proof.
  intros Hout. unfold Dictionary.add. rewrite bool_decide_eq_false_2 by exact Hout.
  rewrite list_index_fresh by exact Hout. reflexivity.
Qed.

Lemma consistent_empty : consistent Dictionary.empty.
Proof.
  split; [apply NoDup_nil_2 |]. intros L i. simpl.
  rewrite lookup_empty, lookup_nil. split; discriminate.
Qed.

Lemma consistent_add_fresh (dict : Dictionary) (L : string) :
  consistent dict → L ∉ label_list dict →
  consistent (mkDictionary (label_list dict ++ [L])
                           (<[L := length (label_list dict)]> (inverted dict))).
Proof.
  intros [Hnd Hinv] Hout. split; simpl.
  - apply NoDup_app. split; [exact Hnd |]. split; [| apply NoDup_singleton].
    intros x Hx Hx'. apply list_elem_of_singleton in Hx'. subst x. contradiction.
  - intros L' i. destruct (decide (L' = L)) as [-> | Hne].
    + rewrite lookup_insert_eq. split.
      * intros [= <-]. rewrite lookup_app_r by lia. rewrite Nat.sub_diag. reflexivity.
      * intros Hl. destruct (decide (i < length (label_list dict))%nat) as [Hlt | Hge].
        -- rewrite lookup_app_l in Hl by exact Hlt.
           exfalso. apply Hout. eapply list_elem_of_lookup_2. exact Hl.
        -- apply lookup_lt_Some in Hl. rewrite length_app in Hl. simpl in Hl.
           f_equal. lia.
    + rewrite lookup_insert_ne by congruence. rewrite Hinv. split.
      * intros Hl. rewrite lookup_app_l; [exact Hl |]. eapply lookup_lt_Some. exact Hl.
      * intros Hl. destruct (decide (i < length (label_list dict))%nat) as [Hlt | Hge].
        -- rewrite lookup_app_l in Hl by exact Hlt. exact Hl.
        -- rewrite lookup_app_r in Hl by lia.
           destruct (i - length (label_list dict))%nat; simpl in Hl; [congruence | discriminate].
Qed.

(** One [add] from a consistent dictionary: it returns, the result is
    consistent, and the list grows by the label exactly when it is new. *)
Lemma add_consistent (dict : Dictionary) (L : string) :
  consistent dict →
  ∃ dict', Dictionary.add dict L = Ok dict' ∧ consistent dict'
           ∧ label_list dict'
             = label_list dict ++ filter (λ y, y ∉ label_list dict) [L].
Proof.
  intros Hc. destruct (decide (L ∈ label_list dict)) as [Hin | Hout].
  - exists dict. split; [apply add_present, Hin |]. split; [exact Hc |].
    rewrite filter_cons_False by (intros H; apply H, Hin).
    rewrite filter_nil, app_nil_r. reflexivity.
  - eexists. split; [apply add_fresh, Hout |].
    split; [apply consistent_add_fresh; assumption |].
    rewrite filter_cons_True by exact Hout. reflexivity.
Qed.

Lemma filter_fresh_step (seen : list string) (x : string) (l : list string) :
  filter (λ y, y ∉ seen ++ filter (λ y, y ∉ seen) [x]) l
  = filter (λ y, y ∉ seen) (filter (λ y, y ≠ x) l).
Proof.
  rewrite list_filter_filter. apply list_filter_iff. intros y.
  destruct (decide (x ∈ seen)) as [Hin | Hout].
  - rewrite filter_cons_False by (intros H; apply H, Hin).
    rewrite filter_nil, app_nil_r. split; [| tauto].
    intros Hy. split; [exact Hy |]. intros ->. contradiction.
  - rewrite filter_cons_True by exact Hout. rewrite filter_nil.
    rewrite not_elem_of_app, list_elem_of_singleton. tauto.
Qed.

(** A run of [add] from a consistent dictionary. *)
Lemma add_all_consistent (labels : list string) (dict : Dictionary) :
  consistent dict →
  ∃ dict', Dictionary.add_all dict labels = Ok dict' ∧ consistent dict'
           ∧ label_list dict'
             = label_list dict ++ filter (λ y, y ∉ label_list dict) (first_occurrences labels).
Proof.
  revert dict. induction labels as [| x labels IH]; intros dict Hc.
  - exists dict. split; [reflexivity |]. split; [exact Hc |].
    simpl. rewrite filter_nil, app_nil_r. reflexivity.
  - destruct (add_consistent dict x Hc) as (d1 & Hadd & Hc1 & Hl1).
    destruct (IH d1 Hc1) as (d2 & Hall & Hc2 & Hl2).
    exists d2. split; [simpl; rewrite Hadd; exact Hall |]. split; [exact Hc2 |].
    rewrite Hl2, Hl1. rewrite filter_fresh_step. rewrite <- (assoc_L (++)).
    f_equal. simpl first_occurrences. rewrite (filter_cons _ x). 
    destruct (decide (x ∉ label_list dict)) as [Hout | Hin].
    + rewrite filter_cons_True by exact Hout. rewrite filter_nil. reflexivity.
    + rewrite filter_cons_False by exact Hin. rewrite filter_nil. reflexivity.
Qed.

Lemma add_all_app (l1 l2 : list string) (dict : Dictionary) :
  Dictionary.add_all dict (l1 ++ l2)
  = Dictionary.add_all dict l1 ≫= λ dict', Dictionary.add_all dict' l2.
Proof.
  revert dict. induction l1 as [| x l1 IH]; intros dict; simpl; [reflexivity |].
  destruct (Dictionary.add dict x); simpl; [apply IH | reflexivity].
Qed.

Lemma elem_of_first_occurrences (labels : list string) (L : string) :
  L ∈ first_occurrences labels ↔ L ∈ labels.
Proof.
  induction labels as [| x labels IH]; simpl; [reflexivity |].
  rewrite !elem_of_cons, list_elem_of_filter, IH.
  destruct (decide (L = x)); tauto.
Qed.

Lemma filter_none_seen (l : list string) : filter (λ y, y ∉ @nil string) l = l.
Proof.
  induction l as [| x l IH]; [reflexivity |].
  rewrite filter_cons_True by apply not_elem_of_nil. rewrite IH. reflexivity.
Qed.

Lemma label_of_lookup (dict : Dictionary) (i : nat) (L : string) :
  label_list dict !! i = Some L → Dictionary.label dict (Z.of_nat i) = Ok L.
Proof.
  intros Hl. unfold Dictionary.label.
  pose proof (lookup_lt_Some _ _ _ Hl) as Hlt.
  rewrite bool_decide_eq_false_2 by lia.
  rewrite bool_decide_eq_false_2 by lia.
  rewrite Nat2Z.id, Hl. reflexivity.
Qed.

Lemma index_of_lookup (dict : Dictionary) (i : nat) (L : string) :
  Dictionary.index_of dict L = Ok i ↔ inverted dict !! L = Some i.
Proof.
  unfold Dictionary.index_of. destruct (inverted dict !! L); split; congruence.
Qed.

End DictionaryFacts.

Section DictionaryBijection.

(** C3. A dictionary built from a list of labels and then extended by any
    run of [add] exists (no call raises) and, for a label [L] among the
    labels given: [label (index_of L)] is [L]; [index_of (label i)] is
    [i] for every [i] below the size; the list of labels has no duplicate
    and is the list of the labels given in the order of their first
    occurrence, so that the indices are [0 .. size - 1] in that order; and
    adding [L] again changes nothing. *)
Theorem dictionary_label_index_bijection (initial added : list string) (L : string) :
  L ∈ initial ++ added →
  ∃ dict0 dict,
    Dictionary.init initial = Ok dict0
    ∧ Dictionary.add_all dict0 added = Ok dict
    ∧ (∃ i, Dictionary.index_of dict L = Ok i ∧ Dictionary.label dict (Z.of_nat i) = Ok L)
    ∧ (∀ i, (i < Dictionary.size dict)%nat →
         ∃ L', Dictionary.label dict (Z.of_nat i) = Ok L' ∧ Dictionary.index_of dict L' = Ok i)
    ∧ NoDup (label_list dict)
    ∧ label_list dict = first_occurrences (initial ++ added)
    ∧ (∀ L' i, Dictionary.index_of dict L' = Ok i ↔ label_list dict !! i = Some L')
    ∧ Dictionary.add dict L = Ok dict.
Proof.
  intros HL.
  destruct (add_all_consistent (initial ++ added) Dictionary.empty consistent_empty)
    as (dict & Hall & [Hnd Hinv] & Hlist).
  simpl in Hlist. rewrite filter_none_seen in Hlist.
  rewrite add_all_app in Hall.
  unfold Dictionary.init.
  destruct (Dictionary.add_all Dictionary.empty initial) as [dict0 |] eqn:Hinit;
    [| discriminate].
  simpl in Hall. exists dict0, dict.
  assert (Hin : L ∈ label_list dict) by (rewrite Hlist; apply elem_of_first_occurrences, HL).
  split; [reflexivity |]. split; [exact Hall |].
  split.
  { apply list_elem_of_lookup_1 in Hin as [i Hi]. exists i.
    split; [apply index_of_lookup, Hinv, Hi | apply label_of_lookup, Hi]. }
  split.
  { intros i Hi. destruct (lookup_lt_is_Some_2 (label_list dict) i Hi) as [L' HL'].
    exists L'. split; [apply label_of_lookup, HL' | apply index_of_lookup, Hinv, HL']. }
  split; [exact Hnd |]. split; [exact Hlist |].
  split; [| apply add_present, Hin].
  intros L' i. rewrite index_of_lookup. apply Hinv.
Qed.

Lemma dictionary_label_index_bijection_witness :
  ∃ dict0 dict,
    Dictionary.init ["staff"; "lyrics"; "staff"] = Ok dict0
    ∧ Dictionary.add_all dict0 ["page"; "lyrics"] = Ok dict
    ∧ (∃ i, Dictionary.index_of dict "page" = Ok i
            ∧ Dictionary.label dict (Z.of_nat i) = Ok "page")
    ∧ (∀ i, (i < Dictionary.size dict)%nat →
         ∃ L', Dictionary.label dict (Z.of_nat i) = Ok L' ∧ Dictionary.index_of dict L' = Ok i)
    ∧ NoDup (label_list dict)
    ∧ label_list dict = first_occurrences (["staff"; "lyrics"; "staff"] ++ ["page"; "lyrics"])
    ∧ (∀ L' i, Dictionary.index_of dict L' = Ok i ↔ label_list dict !! i = Some L')
    ∧ Dictionary.add dict "page" = Ok dict.
Proof.
  apply (dictionary_label_index_bijection ["staff"; "lyrics"; "staff"] ["page"; "lyrics"] "page").
  apply (bool_decide_unpack _). vm_compute. exact I.
Defined.

Example dictionary_first_seen_order :
  label_list <$> Dictionary.init ["staff"; "lyrics"; "staff"; "page"; "lyrics"]
  = Ok ["staff"; "lyrics"; "page"].
Proof. vm_compute. reflexivity. Qed.

Example dictionary_indices :
  (Dictionary.init ["staff"; "lyrics"; "staff"; "page"] ≫= λ dict, Dictionary.index_of dict "page")
  = Ok 2%nat.
Proof. vm_compute. reflexivity. Qed.

End DictionaryBijection.

(** ** The partition *)

Section Partition.

Context {A : Type}.







End Partition.

Section PartitionClaim.





(** A negative train fraction makes the first bound count from the end:
    here the train list has two items and the validation list none. *)
Example partition_negative_train :
  PartitionManager.partition Repr.float5 [0; 1; 2; 3]%nat (mkSplits (- (1 # 2)) 1 (1 # 2))
  = Ok ([0; 1]%nat, [], [2; 3]%nat).
Proof. vm_compute. reflexivity. Qed.

Example partition_sum_099 :
  is_ok (PartitionManager.partition Repr.float5 [0; 1; 2; 3]%nat
           (mkSplits (7 # 10) (2 # 10) (9 # 100))) = false
  ∧ is_ok (PartitionManager.partition Repr.float5 [0; 1; 2; 3]%nat
             (mkSplits (7 # 10) (2 # 10) (11 # 100))) = false.
Proof. vm_compute. auto. Qed.

End PartitionClaim.

(** ** The package loader *)

Section LoaderFacts.

(** A symbol record with the key [approximate_x] is never read: the
    subscript uses the variable that holds [None] as the key. *)
Lemma read_symbol_with_approximate_x (kvs : gmap string pyval) (s : Loader) :
  is_Some (kvs !! "approximate_x") →
  ∃ e s', Load.read_symbol (VDict kvs) s = (Raise e, s').
Proof.
  intros Hx. unfold Load.read_symbol. unfold_M. unfold Py.has_key.
  rewrite (bool_decide_eq_true_2 _ Hx).
  destruct (bool_decide (is_Some (kvs !! "bounding_box"))).
  - cbn [Py.getitem]. destruct (kvs !! "bounding_box") as [bbox |]; [| eauto].
    destruct (Load.from_MuRET bbox s) as [[l | e] s1]; [| eauto].
    cbn. eauto.
  - cbn. eauto.
Qed.

Lemma read_symbol_with_approximate_x_only (kvs : gmap string pyval) (s : Loader) :
  is_Some (kvs !! "approximate_x") → kvs !! "bounding_box" = None →
  Load.read_symbol (VDict kvs) s = (Raise (KeyError VNone), s).
Proof.
  intros Hx Hb. unfold Load.read_symbol. unfold_M. unfold Py.has_key.
  rewrite (bool_decide_eq_true_2 _ Hx).
  rewrite bool_decide_eq_false_2 by (rewrite Hb; apply is_Some_None).
  reflexivity.
Qed.

(** Every symbol that [read_symbol] returns has no [approximate_x]. *)
Lemma read_symbol_approximate_x_absent (symbol : pyval) (s s' : Loader) (sym : AgnosticSymbol.t) :
  Load.read_symbol symbol s = (Ok sym, s') → AgnosticSymbol.approximate_x sym = VNone.
Proof.
  unfold Load.read_symbol. unfold_M.
  destruct (Py.has_key "bounding_box" symbol) as [[|] |]; [| | discriminate].
  - destruct (Py.getitem symbol (VStr "bounding_box")) as [bbox |]; [| discriminate].
    destruct (Load.from_MuRET bbox s) as [[l | e] s1]; [| discriminate].
    destruct (Py.has_key "approximate_x" symbol) as [[|] |] eqn:Hx; [| | discriminate].
    + destruct symbol; discriminate.
    + case_result; try discriminate. intros [= <- _]. reflexivity.
  - destruct (Py.has_key "approximate_x" symbol) as [[|] |] eqn:Hx; [| | discriminate].
    + destruct symbol; discriminate.
    + case_result; try discriminate. intros [= <- _]. reflexivity.
Qed.



Lemma mapM_cons_M {A B} (f : A → M B) (x : A) (l : list A) (s : Loader) :
  mapM f (x :: l) s
  = match f x s with
    | (Ok y, s1) =>
        match mapM f l s1 with
        | (Ok ys, s2) => (Ok (y :: ys), s2)
        | (Raise e, s2) => (Raise e, s2)
        end
    | (Raise e, s1) => (Raise e, s1)
    end.
Proof. reflexivity. Qed.



Lemma results_ok (futures : list (result Image.t)) (images : list Image.t) :
  Load.results futures = Ok images → futures = Ok <$> images.
Proof.
  revert images. induction futures as [| [img | e0] futures IH]; intros images; simpl.
  - intros [= <-]. reflexivity.
  - destruct (Load.results futures) as [imgs |]; simpl; [| discriminate].
    intros [= <-]. rewrite (IH imgs eq_refl). reflexivity.
  - discriminate.
Qed.

End LoaderFacts.

Section UnknownLabels.



End UnknownLabels.

Section UnknownLabelClaim.








(** The same package without the unknown label is loaded. *)
Example known_labels_load :
  is_ok (Package.init
    (Demo.package Demo.dictionary
       [("pkg/files/a.json", Demo.image [Demo.region "staff" []]);
        ("pkg/files/b.json", Demo.image [Demo.region "staff" [Demo.symbol []]])])
    "pkg" []).1 = true.
Proof. vm_compute. reflexivity. Qed.

(** C9. A file whose only symbol record has the key [approximate_x] (and
    known labels) is not loaded: the subscript [symbol[None]] raises
    [KeyError], which leaves the constructor of the package; the same file
    without the key is loaded, with an absent [approximate_x]. *)
Theorem approximate_x_key_raises :
  Package.init
    (Demo.package Demo.dictionary
       [("pkg/files/a.json",
         Demo.image [Demo.region "staff" [Demo.symbol [("approximate_x", VNum 12)]]])])
    "pkg" []
  = (Raise (KeyError VNone),
     ["pkg/dictionary.json"; "pkg/dictionary.json"; "pkg/dictionary.json"; "pkg/files/a.json"])
  ∧ Load.read_symbol (Demo.symbol [("approximate_x", VNum 12)]) Demo.loader
    = (Raise (KeyError VNone), Demo.loader)
  ∧ Load.read_symbol (Demo.symbol []) Demo.loader
    = (Ok (AgnosticSymbol.mk "clef.G" "L2" None VNone), Demo.loader).
Proof. repeat split; vm_compute; reflexivity. Qed.

End UnknownLabelClaim.

(** ** The failures of the constructor of a package *)

Section PackageFailures.

Lemma mapM_as_str (labels : list string) : mapM Py.as_str (VStr <$> labels) = Ok labels.
Proof.
  induction labels as [| x labels IH]; [reflexivity |].
  change (mapM Py.as_str (VStr <$> x :: labels))
    with (y ← Py.as_str (VStr x); k ← mapM Py.as_str (VStr <$> labels); mret (y :: k)).
  rewrite IH. reflexivity.
Qed.

Lemma init_returns (labels : list string) :
  ∃ dict, Dictionary.init labels = Ok dict ∧ label_list dict = first_occurrences labels.
Proof.
  destruct (add_all_consistent labels Dictionary.empty consistent_empty)
    as (dict & Hd & _ & Hl).
  exists dict. split; [exact Hd |]. simpl in Hl. rewrite filter_none_seen in Hl. exact Hl.
Qed.

Lemma from_json_missing (fs : FS) (p root : string) (roots : gmap string pyval)
    (log : list string) :
  files fs !! p = Some (FJson (VDict roots)) → roots !! root = None →
  DictionaryJson.from_json fs p root log
  = (Raise (MuRETException ("No root element named " +:+ root +:+ "'")), log ++ [p]).
Proof.
  intros Hp Hroot. unfold DictionaryJson.from_json, Io.read_json.
  unfold mbind, IO_bind, Io.lift. rewrite Hp. cbn [Py.has_key]. rewrite Hroot.
  reflexivity.
Qed.

Lemma from_json_present (fs : FS) (p root : string) (roots : gmap string pyval)
    (labels : list string) (log : list string) :
  files fs !! p = Some (FJson (VDict roots)) →
  roots !! root = Some (VList (VStr <$> labels)) →
  ∃ dict, DictionaryJson.from_json fs p root log = (Ok dict, log ++ [p])
          ∧ label_list dict = first_occurrences labels.
Proof.
  intros Hp Hroot. destruct (init_returns labels) as (dict & Hinit & Hl).
  exists dict. split; [| exact Hl].
  unfold DictionaryJson.from_json, Io.read_json.
  unfold mbind, IO_bind, Io.lift. rewrite Hp. cbn [Py.has_key Py.getitem]. rewrite Hroot.
  cbn [bool_decide decide_rel negb Py.iter]. rewrite mapM_as_str, Hinit. reflexivity.
Qed.

Lemma exists_file (fs : FS) (p : string) (f : file) :
  files fs !! p = Some f → Os.exists_ fs p = true.
Proof. intros Hp. unfold Os.exists_. rewrite Hp. reflexivity. Qed.

End PackageFailures.

Section PackageFailureClaim.

(** C6. The constructor of a package raises [IOError] when the folder or
    its [dictionary.json] is missing. When [dictionary.json] lacks one of
    the root keys [region_dictionary], [agnostic_symbol_types],
    [agnostic_positions_in_staff] it raises the [MuRETException] of
    [Dictionary.from_json], and the only file opened so far is
    [dictionary.json]: nothing under [files] has been read. When the three
    dictionaries load and [files] is a folder without any JSON file it
    raises the [MuRETException] of the empty package. *)
Theorem package_init_failures (fs : FS) (folder : string) (log : list string) :
  let dictionary_file := Os.join folder "dictionary.json" in
  (Os.exists_ fs folder = false →
     Package.init fs folder log
     = (Raise (IOError ("Folder " +:+ folder +:+ " does not exist")), log))
  ∧ (Os.exists_ fs folder = true → Os.exists_ fs dictionary_file = false →
     Package.init fs folder log
     = (Raise (IOError ("Dictionary file " +:+ dictionary_file +:+ " does not exist")), log))
  ∧ (∀ roots : gmap string pyval,
     Os.exists_ fs folder = true →
     files fs !! dictionary_file = Some (FJson (VDict roots)) →
     roots !! "region_dictionary" = None →
     Package.init fs folder log
     = (Raise (MuRETException "No root element named region_dictionary'"),
        log ++ [dictionary_file]))
  ∧ (∀ (roots : gmap string pyval) (regions : list string),
     Os.exists_ fs folder = true →
     files fs !! dictionary_file = Some (FJson (VDict roots)) →
     roots !! "region_dictionary" = Some (VList (VStr <$> regions)) →
     roots !! "agnostic_symbol_types" = None →
     Package.init fs folder log
     = (Raise (MuRETException "No root element named agnostic_symbol_types'"),
        log ++ [dictionary_file; dictionary_file]))
  ∧ (∀ (roots : gmap string pyval) (regions symbols : list string),
     Os.exists_ fs folder = true →
     files fs !! dictionary_file = Some (FJson (VDict roots)) →
     roots !! "region_dictionary" = Some (VList (VStr <$> regions)) →
     roots !! "agnostic_symbol_types" = Some (VList (VStr <$> symbols)) →
     roots !! "agnostic_positions_in_staff" = None →
     Package.init fs folder log
     = (Raise (MuRETException "No root element named agnostic_positions_in_staff'"),
        log ++ [dictionary_file; dictionary_file; dictionary_file]))
  ∧ (∀ (roots : gmap string pyval) (regions symbols positions : list string),
     Os.exists_ fs folder = true →
     files fs !! dictionary_file = Some (FJson (VDict roots)) →
     roots !! "region_dictionary" = Some (VList (VStr <$> regions)) →
     roots !! "agnostic_symbol_types" = Some (VList (VStr <$> symbols)) →
     roots !! "agnostic_positions_in_staff" = Some (VList (VStr <$> positions)) →
     Os.isdir fs (Os.join folder "files") = true →
     filter (λ '(_, fname), Os.endswith fname ".json" = true)
            (Os.walk fs (Os.join folder "files")) = [] →
     Package.init fs folder log
     = (Raise (MuRETException "Empty MuRET training set package"),
        log ++ [dictionary_file; dictionary_file; dictionary_file])).
Proof.
  intros dictionary_file. unfold Package.init. fold dictionary_file.
  split; [| split; [| split; [| split; [| split]]]].
  - intros ->. reflexivity.
  - intros -> ->. reflexivity.
  - intros roots -> Hfile Hr. rewrite (exists_file _ _ _ Hfile). cbn [negb].
    unfold mbind, IO_bind. rewrite (from_json_missing _ _ _ _ _ Hfile Hr). reflexivity.
  - intros roots regions -> Hfile Hr Hs. rewrite (exists_file _ _ _ Hfile). cbn [negb].
    unfold mbind, IO_bind.
    destruct (from_json_present _ _ _ _ regions log Hfile Hr) as (d1 & -> & _).
    rewrite (from_json_missing _ _ _ _ _ Hfile Hs). rewrite <- (assoc_L (++)). reflexivity.
  - intros roots regions symbols -> Hfile Hr Hs Hp. rewrite (exists_file _ _ _ Hfile).
    cbn [negb]. unfold mbind, IO_bind.
    destruct (from_json_present _ _ _ _ regions log Hfile Hr) as (d1 & -> & _).
    destruct (from_json_present _ _ _ _ symbols (log ++ [dictionary_file]) Hfile Hs)
      as (d2 & -> & _).
    rewrite (from_json_missing _ _ _ _ _ Hfile Hp). rewrite <- !(assoc_L (++)). reflexivity.
  - intros roots regions symbols positions -> Hfile Hr Hs Hp Hdir Hnone.
    rewrite (exists_file _ _ _ Hfile). cbn [negb]. unfold mbind, IO_bind.
    destruct (from_json_present _ _ _ _ regions log Hfile Hr) as (d1 & -> & _).
    destruct (from_json_present _ _ _ _ symbols (log ++ [dictionary_file]) Hfile Hs)
      as (d2 & -> & _).
    destruct (from_json_present _ _ _ _ positions
                ((log ++ [dictionary_file]) ++ [dictionary_file]) Hfile Hp) as (d3 & -> & _).
    unfold PackageFilesLoader.load, Os.exists_. unfold Os.isdir in Hdir |- *.
    rewrite Hdir. rewrite orb_true_r. cbn [negb].
    unfold PackageFilesLoader._load_folder. rewrite Hnone.
    unfold mbind, IO_bind. cbn. rewrite <- !(assoc_L (++)). reflexivity.
Qed.

Lemma package_init_failures_witness :
  Package.init (mkFS ∅ ∅) "pkg" [] = (Raise (IOError "Folder pkg does not exist"), [])
  ∧ Package.init (Demo.package Demo.dictionary_without_symbol_types
                    [("pkg/files/a.json", Demo.image [])]) "pkg" []
    = (Raise (MuRETException "No root element named agnostic_symbol_types'"),
       ["pkg/dictionary.json"; "pkg/dictionary.json"])
  ∧ Package.init (Demo.package Demo.dictionary []) "pkg" []
    = (Raise (MuRETException "Empty MuRET training set package"),
       ["pkg/dictionary.json"; "pkg/dictionary.json"; "pkg/dictionary.json"]).
Proof.
  split; [| split].
  - destruct (package_init_failures (mkFS ∅ ∅) "pkg" []) as [Hfolder _].
    apply Hfolder. vm_compute. reflexivity.
  - destruct (package_init_failures
                (Demo.package Demo.dictionary_without_symbol_types
                   [("pkg/files/a.json", Demo.image [])]) "pkg" [])
      as (_ & _ & _ & Hkey & _).
    apply (Hkey (list_to_map
                   [("region_dictionary", VList [VStr "page"; VStr "staff"]);
                    ("agnostic_positions_in_staff", VList [VStr "L2"])])
                ["page"; "staff"]); vm_compute; reflexivity.
  - destruct (package_init_failures (Demo.package Demo.dictionary []) "pkg" [])
      as (_ & _ & _ & _ & _ & Hempty).
    apply (Hempty (list_to_map
                     [("region_dictionary", VList [VStr "page"; VStr "staff"]);
                      ("agnostic_symbol_types", VList [VStr "clef.G"]);
                      ("agnostic_positions_in_staff", VList [VStr "L2"])])
                  ["page"; "staff"] ["clef.G"] ["L2"]); vm_compute; reflexivity.
Defined.

(** A file that does not decode is met only after the dictionaries. *)
Example missing_key_before_files :
  Package.init (mkFS (list_to_map [("pkg/dictionary.json", FJson Demo.dictionary_without_symbol_types);
                                   ("pkg/files/a.json", FData "not json")])
                     (list_to_set ["pkg"; "pkg/files"])) "pkg" []
  = (Raise (MuRETException "No root element named agnostic_symbol_types'"),
     ["pkg/dictionary.json"; "pkg/dictionary.json"]).
Proof. vm_compute. reflexivity. Qed.

End PackageFailureClaim.

(** ** The store of the boxes *)

Section StoreFacts.

Lemma same_tags_refl (h : list BoundingBox) : same_tags h h.
Proof. intros l box Hl. eauto. Qed.

Lemma same_tags_trans (h1 h2 h3 : list BoundingBox) :
  same_tags h1 h2 → same_tags h2 h3 → same_tags h1 h3.
Proof.
  intros H12 H23 l box Hl.
  destruct (H12 l box Hl) as (box2 & Hl2 & Ht2).
  destruct (H23 l box2 Hl2) as (box3 & Hl3 & Ht3).
  exists box3. split; [exact Hl3 | congruence].
Qed.

Lemma same_tags_app (h : list BoundingBox) (box : BoundingBox) : same_tags h (h ++ [box]).
Proof.
  intros l box0 Hl. exists box0. split; [| reflexivity].
  rewrite lookup_app_l; [exact Hl |]. eapply lookup_lt_Some. exact Hl.
Qed.

Lemma same_tags_resize (h : list BoundingBox) (l : ref) (box : BoundingBox) (scale : Q * Q) :
  h !! l = Some box → same_tags h (<[l := BoundingBox.resize box scale]> h).
Proof.
  intros Hl l' box' Hl'. destruct (decide (l' = l)) as [-> | Hne].
  - rewrite list_lookup_insert_eq by (eapply lookup_lt_Some; exact Hl).
    rewrite Hl in Hl'. injection Hl' as <-.
    eexists. split; [reflexivity |]. reflexivity.
  - rewrite list_lookup_insert_ne by congruence. eauto.
Qed.

Lemma preprocess_same_tags (obj : Object) (format : string) (img_dims resized_dims : Dimensions)
    (h h' : list BoundingBox) (r : result Object) :
  Object.preprocess obj format img_dims resized_dims h = (r, h') → same_tags h h'.
Proof.
  unfold Object.preprocess, Object.resize_in_place, Object.to_ref. unfold_St.
  destruct (Num.truediv (width resized_dims) (width img_dims)) as [sx |];
    [| intros [= _ <-]; apply same_tags_refl].
  destruct (Num.truediv (height resized_dims) (height img_dims)) as [sy |];
    [| intros [= _ <-]; apply same_tags_refl].
  destruct (h !! bounding_box obj) as [box |] eqn:Hl;
    [| intros [= _ <-]; apply same_tags_refl].
  rewrite list_lookup_insert_eq by (eapply lookup_lt_Some; exact Hl).
  pose proof (same_tags_resize h _ box (sx, sy) Hl) as Hres.
  destruct (BoundingBox.to (BoundingBox.resize box (sx, sy)) format (Some resized_dims))
    as [box' |]; [| intros [= _ <-]; exact Hres].
  destruct (String.eqb _ format); intros [= _ <-]; [exact Hres |].
  eapply same_tags_trans; [exact Hres | apply same_tags_app].
Qed.

Lemma mapM_same_tags {A B} (f : A → St B) (xs : list A) :
  (∀ x h h' r, f x h = (r, h') → same_tags h h') →
  ∀ h h' r, mapM f xs h = (r, h') → same_tags h h'.
Proof.
  intros Hf. induction xs as [| x xs IH]; intros h h' r.
  - intros [= _ <-]. apply same_tags_refl.
  - change (mapM f (x :: xs) h)
      with (match f x h with
            | (Ok y, h1) =>
                match mapM f xs h1 with
                | (Ok ys, h2) => (Ok (y :: ys), h2)
                | (Raise e, h2) => (Raise e, h2)
                end
            | (Raise e, h1) => (Raise e, h1)
            end).
    destruct (f x h) as [[y | e] h1] eqn:Hx.
    + destruct (mapM f xs h1) as [[ys | e] h2] eqn:Hxs; intros [= _ <-];
        (eapply same_tags_trans; [eapply Hf, Hx | eapply IH, Hxs]).
    + intros [= _ <-]. eapply Hf, Hx.
Qed.



End StoreFacts.

Section SharedBoxes.



(** The graph and the store of the examples are what the loader builds. *)
Example demo_graph_is_loaded :
  Load.read_file (mkDatasetFile None "a" (Demo.image [Demo.region "staff" []])) Demo.loader
  = (Ok demo_graph,
     mkLoader Demo.region_types Demo.symbol_types Demo.positions demo_store).
Proof. vm_compute. reflexivity. Qed.


(** A second generation rescales the boxes of the graph again. *)
Example image_generation_twice :
  ∃ image1 h1 image2 h2 page_box,
    MuRET2YOLO.generate_full_image Demo.loader REGIONS "abc" demo_graph
      (Ok demo_pixels_halved) demo_store = (Some image1, h1)
    ∧ MuRET2YOLO.generate_full_image Demo.loader REGIONS "abc" demo_graph
        (Ok demo_pixels_halved) h1 = (Some image2, h2)
    ∧ h2 !! 0%nat = Some page_box
    ∧ (c page_box == 25)%Q.
Proof.
  eexists _, _, _, _, _.
  split; [vm_compute; reflexivity |]. split; [vm_compute; reflexivity |].
  split; reflexivity.
Qed.

End SharedBoxes.

(** ** The label files *)

Section LabelFiles.

Lemma to_yolo_tag (self r : BoundingBox) (img_dims : option Dimensions) :
  BoundingBox.to self "yolo" img_dims = Ok r → current_format r = "yolo".
Proof.
  rewrite (proj1 (to_supported _ _)). unfold BoundingBox.to_yolo.
  destruct (String.eqb_spec (current_format self) "yolo") as [E | _].
  - intros [= <-]. exact E.
  - destruct img_dims as [dims |]; [| discriminate].
    destruct (if String.eqb _ _ then _ else _) as [[[xc yc] w] h].
    destruct (Num.truediv xc _); simpl; [| discriminate].
    destruct (Num.truediv yc _); simpl; [| discriminate].
    destruct (Num.truediv w _); simpl; [| discriminate].
    destruct (Num.truediv h _); simpl; [| discriminate].
    intros [= <-]. reflexivity.
Qed.

(** The box of a preprocessed object is tagged yolo. *)
Lemma preprocess_yolo (obj obj' : Object) (img_dims resized_dims : Dimensions)
    (h h' : list BoundingBox) :
  Object.preprocess obj "yolo" img_dims resized_dims h = (Ok obj', h') →
  label obj' = label obj
  ∧ ∃ box, h' !! bounding_box obj' = Some box ∧ current_format box = "yolo".
Proof.
  unfold Object.preprocess, Object.resize_in_place, Object.to_ref. unfold_St.
  destruct (Num.truediv (width resized_dims) (width img_dims)) as [sx |]; [| discriminate].
  destruct (Num.truediv (height resized_dims) (height img_dims)) as [sy |]; [| discriminate].
  destruct (h !! bounding_box obj) as [box |] eqn:Hl; [| discriminate].
  assert (Hlt : (bounding_box obj < length h)%nat) by (eapply lookup_lt_Some; exact Hl).
  rewrite list_lookup_insert_eq by exact Hlt.
  destruct (BoundingBox.to (BoundingBox.resize box (sx, sy)) "yolo" (Some resized_dims))
    as [box' |] eqn:Hto; [| discriminate].
  apply to_yolo_tag in Hto.
  destruct (String.eqb_spec (current_format (BoundingBox.resize box (sx, sy))) "yolo")
    as [E | _]; intros [= <- <-]; (split; [reflexivity |]); simpl.
  - exists (BoundingBox.resize box (sx, sy)).
    split; [apply list_lookup_insert_eq, Hlt | exact E].
  - exists box'. split; [| exact Hto].
    rewrite lookup_app_r by (rewrite length_insert; lia).
    rewrite length_insert, Nat.sub_diag. reflexivity.
Qed.

Lemma mapM_cons_St {A B} (f : A → St B) (x : A) (l : list A) (h : list BoundingBox) :
  mapM f (x :: l) h
  = match f x h with
    | (Ok y, h1) =>
        match mapM f l h1 with
        | (Ok ys, h2) => (Ok (y :: ys), h2)
        | (Raise e, h2) => (Raise e, h2)
        end
    | (Raise e, h1) => (Raise e, h1)
    end.
Proof. reflexivity. Qed.

(** After the constructor of an image every object has a box tagged yolo. *)
Lemma init_objects_yolo (img_dims resized_dims : Dimensions) (objs objs' : list Object)
    (h h' : list BoundingBox) :
  mapM (λ obj, Object.preprocess obj "yolo" img_dims resized_dims) objs h = (Ok objs', h') →
  Forall (λ obj, ∃ box, h' !! bounding_box obj = Some box ∧ current_format box = "yolo") objs'.
Proof.
  revert objs' h. induction objs as [| obj objs IH]; intros objs' h.
  - intros [= <- _]. constructor.
  - rewrite mapM_cons_St.
    destruct (Object.preprocess obj "yolo" img_dims resized_dims h) as [[y | e] h1] eqn:Hx;
      [| discriminate].
    match goal with
    | |- context [match ?m with (_, _) => _ end] => destruct m as [[ys | e] h2] eqn:Hxs
    end; [| discriminate].
    intros [= <- <-]. constructor; [| eapply IH, Hxs].
    destruct (preprocess_yolo _ _ _ _ _ _ Hx) as (_ & box & Hbox & Htag).
    assert (Hkeep : same_tags h1 h2).
    { eapply mapM_same_tags; [| exact Hxs].
      intros x h0 h0' r0. apply preprocess_same_tags. }
    destruct (Hkeep _ _ Hbox) as (box2 & Hbox2 & Htag2).
    exists box2. split; [exact Hbox2 | congruence].
Qed.

Lemma object_str_row (repr : Q → string) (h : list BoundingBox) (obj : Object)
    (box : BoundingBox) :
  h !! bounding_box obj = Some box →
  Object.str repr h obj = Ok (label_row repr (label obj) box).
Proof.
  intros Hl. unfold Object.str, label_row, BoundingBox.str. rewrite Hl.
  reflexivity.
Qed.

(** The rows of the objects of an image whose boxes are in the store. *)
Lemma rows_of_objects (repr : Q → string) (h : list BoundingBox) (objs : list Object) :
  Forall (λ obj, ∃ box, h !! bounding_box obj = Some box ∧ current_format box = "yolo") objs →
  ∃ lines,
    mapM (Object.str repr h) objs = Ok lines
    ∧ Forall2 (λ obj line, ∃ box,
        h !! bounding_box obj = Some box ∧ current_format box = "yolo"
        ∧ line = label_row repr (label obj) box) objs lines.
Proof.
  induction 1 as [| obj objs (box & Hbox & Htag) _ (lines & Hlines & Hrows)].
  - exists []. split; [reflexivity | constructor].
  - exists (label_row repr (label obj) box :: lines). split.
    + change (mapM (Object.str repr h) (obj :: objs))
        with (y ← Object.str repr h obj; k ← mapM (Object.str repr h) objs; mret (y :: k)).
      rewrite (object_str_row _ _ _ _ Hbox), Hlines. reflexivity.
    + constructor; [| exact Hrows]. exists box. auto.
Qed.

(** A text made of lines: every line but the last is followed by one
    newline, and the last line ends the text. *)
Lemma join_lines_last (lines : list string) (last : string) :
  ImageYOLO.join_lines (lines ++ [last])
  = fold_right (λ line rest, line +:+ newline +:+ rest) last lines.
Proof.
  induction lines as [| line lines IH]; [reflexivity |].
  simpl fold_right. rewrite <- IH. simpl.
  destruct (lines ++ [last]) eqn:E; [destruct lines; discriminate |].
  reflexivity.
Qed.

(** C5, as the code has it. The objects of an image that its constructor
    returned all have a box tagged yolo. The text of the image has one row
    per object, [<class_index> <x_center> <y_center> <width> <height>] with
    single spaces between the fields; every row but the last is followed by
    one newline and the last row ends the text (no object, empty text).
    That text is what is written to [<labels_folder>/<file_name>.txt]. *)
Theorem label_rows_joined_by_newlines (repr : Q → string) (file_name : string)
    (shape dims : Dimensions) (objs : list Object) (h h' : list BoundingBox)
    (image : ImageYOLO) (labels_folder : string) (fs : FS) :
  ImageYOLO.init file_name shape objs dims h = (Ok image, h') →
  ∃ lines text,
    mapM (Object.str repr h') (objects image) = Ok lines
    ∧ Forall2 (λ obj line, ∃ box,
        h' !! bounding_box obj = Some box ∧ current_format box = "yolo"
        ∧ line = pretty (label obj) +:+ " " +:+ repr (a box) +:+ " " +:+ repr (b box)
                   +:+ " " +:+ repr (c box) +:+ " " +:+ repr (d box)) (objects image) lines
    ∧ ImageYOLO.str repr h' image = Ok text
    ∧ (lines = [] → text = "")
    ∧ (∀ before last, lines = before ++ [last] →
         text = fold_right (λ line rest, line +:+ newline +:+ rest) last before)
    ∧ MuRET2YOLO.save_labels repr h' image labels_folder fs
      = Ok (Os.write fs (Os.join labels_folder (file_name +:+ ".txt")) text).
Proof.
  unfold ImageYOLO.init. unfold_St.
  match goal with
  | |- context [let (_, _) := ?m in _] => destruct m as [[objs' | e] h1] eqn:Hmap
  end; [| discriminate].
  intros [= <- <-].
  apply init_objects_yolo in Hmap.
  destruct (rows_of_objects repr h1 objs' Hmap) as (lines & Hlines & Hrows).
  exists lines, (ImageYOLO.join_lines lines).
  split; [exact Hlines |]. split; [exact Hrows |].
  assert (Hstr : ImageYOLO.str repr h1 (mkImageYOLO file_name shape objs' dims)
                 = Ok (ImageYOLO.join_lines lines)).
  { unfold ImageYOLO.str. simpl. rewrite Hlines. reflexivity. }
  split; [exact Hstr |].
  split; [intros ->; reflexivity |].
  split; [intros before last ->; apply join_lines_last |].
  unfold MuRET2YOLO.save_labels. rewrite Hstr. reflexivity.
Qed.

Lemma label_rows_joined_by_newlines_witness :
  ∃ image h',
    ImageYOLO.init "abc" (mkDimensions 100 200) [mkObject 0 0; mkObject 1 1]
                   (mkDimensions 100 200) demo_store = (Ok image, h')
    ∧ ∃ lines text,
        mapM (Object.str Repr.float5 h') (objects image) = Ok lines
        ∧ Forall2 (λ obj line, ∃ box,
            h' !! bounding_box obj = Some box ∧ current_format box = "yolo"
            ∧ line = pretty (label obj) +:+ " " +:+ Repr.float5 (a box)
                       +:+ " " +:+ Repr.float5 (b box) +:+ " " +:+ Repr.float5 (c box)
                       +:+ " " +:+ Repr.float5 (d box)) (objects image) lines
        ∧ ImageYOLO.str Repr.float5 h' image = Ok text
        ∧ (lines = [] → text = "")
        ∧ (∀ before last, lines = before ++ [last] →
             text = fold_right (λ line rest, line +:+ newline +:+ rest) last before)
        ∧ MuRET2YOLO.save_labels Repr.float5 h' image "out/labels/train" (mkFS ∅ ∅)
          = Ok (Os.write (mkFS ∅ ∅) (Os.join "out/labels/train" ("abc" +:+ ".txt")) text).
Proof.
  eexists _, _. split; [vm_compute; reflexivity |].
  apply (label_rows_joined_by_newlines Repr.float5 "abc" (mkDimensions 100 200)
           (mkDimensions 100 200) [mkObject 0 0; mkObject 1 1] demo_store).
  vm_compute. reflexivity.
Defined.

(** C5, as it is stated, fails: the label file of the image of
    [demo_graph] has two rows, and its text ends with the last row, not
    with a newline. *)
Lemma last_label_row_has_no_newline :
  ∃ image h' text,
    MuRET2YOLO.generate_full_image Demo.loader REGIONS "abc" demo_graph (Ok demo_pixels)
                                   demo_store = (Some image, h')
    ∧ ImageYOLO.str Repr.float5 h' image = Ok text
    ∧ text = "0 0.5 0.5 1.0 1.0" +:+ newline +:+ "1 0.5 0.5 0.8 0.9"
    ∧ Os.endswith text newline = false
    ∧ files <$> MuRET2YOLO.save_labels Repr.float5 h' image "out/labels/train" (mkFS ∅ ∅)
      = Ok {["out/labels/train/abc.txt" := FData text]}.
Proof.
  eexists _, _, _.
  split; [vm_compute; reflexivity |].
  split; [vm_compute; reflexivity |].
  split; [reflexivity |].
  split; vm_compute; reflexivity.
Qed.

(** An image without any object has an empty label file. *)
Example no_object_empty_text :
  ImageYOLO.str Repr.float5 [] (mkImageYOLO "abc" (mkDimensions 1 1) [] (mkDimensions 1 1))
  = Ok "".
Proof. reflexivity. Qed.

End LabelFiles.

(** ** The image cache *)

Section ImageCache.

Variable sha256_hexdigest : string → string.
Hypothesis digest_length : ∀ data, String.length (sha256_hexdigest data) = 64%nat.

Lemma length_substring_0 (n : nat) (s : string) :
  (n ≤ String.length s)%nat → String.length (substring 0 n s) = n.
Proof.
  revert s. induction n as [| n IH]; intros s Hn.
  - destruct s; reflexivity.
  - destruct s as [| ch s]; simpl in Hn |- *; [lia |]. rewrite IH by lia. reflexivity.
Qed.

(** The key of an image: 13 characters, whatever the URL. *)
Lemma local_filename_length (u : string) :
  ∃ key, _get_local_filename sha256_hexdigest (VStr u) 13 = Ok key
         ∧ key = substring 0 13 (sha256_hexdigest u)
         ∧ String.length key = 13%nat.
Proof.
  eexists. split; [reflexivity |]. split; [reflexivity |].
  apply length_substring_0. rewrite digest_length. lia.
Qed.

(** The file of the key is on the disk: no request is sent. *)
Lemma init_cached (network : string → option string) (rep : Image.t) (cache u : string)
    (w : World) (f : file) :
  Image.url rep = VStr u →
  files (disk w) !! cache_path sha256_hexdigest cache u = Some f →
  ∃ img w',
    RemoteImage_init sha256_hexdigest network (Some rep) (Some cache) w = (Ok img, w')
    ∧ url img = VStr u
    ∧ disk_file_name img = Some (cache_path sha256_hexdigest cache u)
    ∧ fetched w' = fetched w
    ∧ files (disk w') = files (disk w).
Proof.
  intros Hurl Hfile. unfold RemoteImage_init, _get_local_filename, url_text. unfold_Net.
  rewrite Hurl. cbn [result_bind]. fold (cache_path sha256_hexdigest cache u).
  destruct (Os.exists_ _ (Os.join cache "images")); cbn [negb];
    (rewrite (exists_file _ _ f) by exact Hfile); cbn [negb];
    eexists _, _; (split; [reflexivity |]); auto.
Qed.

(** Reading the content of an image with a cache never sends a request. *)
Lemma get_content_cached (network : string → option string) (img : RemoteImage) (w : World)
    (p bytes : string) :
  disk_file_name img = Some p → files (disk w) !! p = Some (FData bytes) →
  _get_content network img w = (Ok bytes, w).
Proof. intros Hp Hfile. unfold _get_content. rewrite Hp, Hfile. reflexivity. Qed.

(** Nothing is at the path of the key: one request is sent, and its
    content, when there is one, is written under the key. *)
Lemma init_missing (network : string → option string) (rep : Image.t) (cache u : string)
    (w : World) :
  Image.url rep = VStr u →
  files (disk w) !! cache_path sha256_hexdigest cache u = None →
  cache_path sha256_hexdigest cache u ∉ dirs (disk w) →
  cache_path sha256_hexdigest cache u ≠ Os.join cache "cropped" →
  cache_path sha256_hexdigest cache u ≠ Os.join cache "images" →
  ∃ r w',
    RemoteImage_init sha256_hexdigest network (Some rep) (Some cache) w = (r, w')
    ∧ fetched w' = fetched w ++ [u]
    ∧ match network u with
      | Some bytes =>
          if String.eqb bytes "" then
            r = Raise (Exception "Cannot retrieve image") ∧ files (disk w') = files (disk w)
          else
            (∃ img, r = Ok img ∧ disk_file_name img = Some (cache_path sha256_hexdigest cache u))
            ∧ files (disk w') = <[cache_path sha256_hexdigest cache u := FData bytes]> (files (disk w))
      | None =>
          r = Raise (Exception "Cannot retrieve image") ∧ files (disk w') = files (disk w)
      end.
Proof.
  intros Hurl Hfile Hdir Hcropped Himages.
  unfold RemoteImage_init, _get_local_filename, url_text. unfold_Net.
  rewrite Hurl. cbn [result_bind]. fold (cache_path sha256_hexdigest cache u).
  assert (Hnot : ∀ ds : gset string, cache_path sha256_hexdigest cache u ∉ ds →
            Os.exists_ (mkFS (files (disk w)) ds) (cache_path sha256_hexdigest cache u) = false).
  { intros ds Hds. unfold Os.exists_. simpl. rewrite Hfile.
    rewrite bool_decide_eq_false_2 by (intros []; discriminate).
    rewrite bool_decide_eq_false_2 by exact Hds. reflexivity. }
  destruct (Os.exists_ _ (Os.join cache "images")); cbn [negb];
    cbn [disk fetched]; unfold Os.makedirs; cbn [files dirs];
    (rewrite Hnot by (rewrite ?elem_of_union, !elem_of_singleton; tauto));
    cbn [negb disk fetched];
    (destruct (network u) as [bytes |]; [| eexists _, _; split; [reflexivity |]; auto]);
    destruct (String.eqb bytes ""); cbn [negb];
      eexists _, _; (split; [reflexivity |]); simpl; eauto.
Qed.

(** C8, as the code has it. With a cache folder, the key of a URL is the
    first 13 characters of the digest of the URL. When the file of the key
    is on the disk, the acquisition sends no request and the content is read
    from that file. When nothing is at that path, the acquisition sends
    exactly one request; if the request gives a content that is not empty,
    the content is written under the key and a later acquisition of the same
    URL sends no request and reads that content; if the request fails or
    gives an empty content, the acquisition raises and nothing is written. *)
Theorem url_cache_policy (network : string → option string) (rep : Image.t)
    (cache u : string) (w : World) :
  Image.url rep = VStr u →
  let path := cache_path sha256_hexdigest cache u in
  (∃ key, _get_local_filename sha256_hexdigest (VStr u) 13 = Ok key
          ∧ String.length key = 13%nat
          ∧ path = Os.join (Os.join cache "images") key)
  ∧ (∀ bytes, files (disk w) !! path = Some (FData bytes) →
     ∃ img w',
       RemoteImage_init sha256_hexdigest network (Some rep) (Some cache) w = (Ok img, w')
       ∧ fetched w' = fetched w
       ∧ files (disk w') = files (disk w)
       ∧ _get_content network img w' = (Ok bytes, w'))
  ∧ (files (disk w) !! path = None → path ∉ dirs (disk w) →
     path ≠ Os.join cache "cropped" → path ≠ Os.join cache "images" →
     ∃ r w',
       RemoteImage_init sha256_hexdigest network (Some rep) (Some cache) w = (r, w')
       ∧ fetched w' = fetched w ++ [u]
       ∧ (∀ bytes, network u = Some bytes → bytes ≠ "" →
            (∃ img, r = Ok img)
            ∧ files (disk w') = <[path := FData bytes]> (files (disk w))
            ∧ ∀ network2, ∃ img2 w2,
                RemoteImage_init sha256_hexdigest network2 (Some rep) (Some cache) w'
                = (Ok img2, w2)
                ∧ fetched w2 = fetched w'
                ∧ _get_content network2 img2 w2 = (Ok bytes, w2))
       ∧ (network u = None ∨ network u = Some "" →
            r = Raise (Exception "Cannot retrieve image")
            ∧ files (disk w') = files (disk w))).
Proof.
  intros Hurl path.
  assert (Hcached : ∀ net (w0 : World) bytes,
    files (disk w0) !! path = Some (FData bytes) →
    ∃ img w',
      RemoteImage_init sha256_hexdigest net (Some rep) (Some cache) w0 = (Ok img, w')
      ∧ fetched w' = fetched w0
      ∧ files (disk w') = files (disk w0)
      ∧ _get_content net img w' = (Ok bytes, w')).
  { intros net w0 bytes Hfile.
    destruct (init_cached net rep cache u w0 _ Hurl Hfile)
      as (img & w' & Hinit & _ & Hname & Hfetched & Hfiles).
    exists img, w'. split; [exact Hinit |]. split; [exact Hfetched |].
    split; [exact Hfiles |].
    apply (get_content_cached net img w' path bytes Hname). rewrite Hfiles. exact Hfile. }
  split; [| split].
  - destruct (local_filename_length u) as (key & Hkey & -> & Hlen).
    eexists. split; [exact Hkey |]. split; [exact Hlen | reflexivity].
  - intros bytes Hfile. apply Hcached, Hfile.
  - intros Hfile Hdir Hcropped Himages.
    destruct (init_missing network rep cache u w Hurl Hfile Hdir Hcropped Himages)
      as (r & w' & Hinit & Hfetched & Hcase).
    exists r, w'. split; [exact Hinit |]. split; [exact Hfetched |]. split.
    + intros bytes Hnet Hne. rewrite Hnet in Hcase.
      destruct (String.eqb bytes "") eqn:E; [apply String.eqb_eq in E; contradiction |].
      destruct Hcase as [[img [Hr _]] Hfiles].
      split; [eauto |]. split; [exact Hfiles |].
      intros network2.
      destruct (Hcached network2 w' bytes) as (img2 & w2 & H1 & H2 & _ & H4).
      { rewrite Hfiles. apply lookup_insert_eq. }
      exists img2, w2. auto.
    + intros [Hnet | Hnet]; rewrite Hnet in Hcase; exact Hcase.
Qed.

End ImageCache.

Section ImageCacheExamples.

Lemma demo_digest_length (data : string) : String.length (Demo.digest data) = 64%nat.
Proof. reflexivity. Qed.

Lemma url_cache_policy_witness :
  ∃ r w',
    RemoteImage_init Demo.digest (λ _, Some "JPEG") (Some demo_graph) (Some "cache")
                     (mkWorld (mkFS ∅ ∅) []) = (r, w')
    ∧ fetched w' = ["http://example.org/1.jpg"]
    ∧ (∃ img, r = Ok img)
    ∧ files (disk w')
      = {[cache_path Demo.digest "cache" "http://example.org/1.jpg" := FData "JPEG"]}
    ∧ ∀ network2, ∃ img2 w2,
        RemoteImage_init Demo.digest network2 (Some demo_graph) (Some "cache") w'
        = (Ok img2, w2)
        ∧ fetched w2 = fetched w'
        ∧ _get_content network2 img2 w2 = (Ok "JPEG", w2).
Proof.
  destruct (url_cache_policy Demo.digest demo_digest_length (λ _, Some "JPEG") demo_graph
              "cache" "http://example.org/1.jpg" (mkWorld (mkFS ∅ ∅) []) eq_refl)
    as (_ & _ & Hmiss).
  destruct Hmiss as (r & w' & Hinit & Hfetched & Hgood & _).
  - reflexivity.
  - apply not_elem_of_empty.
  - intros H. vm_compute in H. discriminate.
  - intros H. vm_compute in H. discriminate.
  - exists r, w'. split; [exact Hinit |]. split; [exact Hfetched |].
    destruct (Hgood "JPEG" eq_refl) as (Himg & Hfiles & Hnext).
    + intros H. discriminate.
    + split; [exact Himg |]. split; [exact Hfiles | exact Hnext].
Defined.

(** C8, as it is stated, fails when the request fails: nothing is written
    under the key, and the next acquisition of the same URL sends a request
    again. *)
Lemma failed_fetch_is_not_cached :
  ∃ w1 w2,
    RemoteImage_init Demo.digest (λ _, None) (Some demo_graph) (Some "cache")
                     (mkWorld (mkFS ∅ ∅) [])
    = (Raise (Exception "Cannot retrieve image"), w1)
    ∧ files (disk w1) = ∅
    ∧ fetched w1 = ["http://example.org/1.jpg"]
    ∧ RemoteImage_init Demo.digest (λ _, None) (Some demo_graph) (Some "cache") w1
      = (Raise (Exception "Cannot retrieve image"), w2)
    ∧ fetched w2 = ["http://example.org/1.jpg"; "http://example.org/1.jpg"].
Proof.
  eexists _, _. split; [vm_compute; reflexivity |].
  split; [reflexivity |]. split; [reflexivity |].
  split; [vm_compute; reflexivity | reflexivity].
Qed.

(** Without a cache folder every read of the content is a request. *)
Example no_cache_fetches_each_time :
  ∃ img w1 w2,
    RemoteImage_init Demo.digest (λ _, Some "JPEG") (Some demo_graph) None
                     (mkWorld (mkFS ∅ ∅) []) = (Ok img, w1)
    ∧ fetched w1 = []
    ∧ _get_content (λ _, Some "JPEG") img w1 = (Ok "JPEG", w2)
    ∧ fetched w2 = ["http://example.org/1.jpg"].
Proof.
  eexists _, _, _. split; [reflexivity |]. split; [reflexivity |].
  split; reflexivity.
Qed.

End ImageCacheExamples.

(** * Further properties *)

(** ** Conversions of bounding boxes *)

Section Conversions.

Local Open Scope Q_scope.

(** X1. A conversion to the format that a box already has returns the box
    itself, whatever the dimensions given, none included. *)
Theorem to_same_format_is_identity (self : BoundingBox) (format : string)
    (img_dims : option Dimensions) :
  format ∈ SUPPORTED_OD_FORMATS → current_format self = format →
  BoundingBox.to self format img_dims = Ok self.
Proof.
  intros Hin Htag. unfold SUPPORTED_OD_FORMATS in Hin.
  destruct (to_supported self img_dims) as (Hy & Hc & Hp).
  repeat (apply elem_of_cons in Hin as [-> | Hin]).
  - rewrite Hy. unfold BoundingBox.to_yolo. rewrite Htag. reflexivity.
  - rewrite Hc. unfold BoundingBox.to_coco. rewrite Htag. reflexivity.
  - rewrite Hp. unfold BoundingBox.to_pascal. rewrite Htag. reflexivity.
  - apply elem_of_nil in Hin. contradiction.
Qed.

Lemma to_same_format_is_identity_witness :
  BoundingBox.to (mkBoundingBox (1 # 2) (1 # 2) (4 # 5) (9 # 10) "yolo") "yolo" None
  = Ok (mkBoundingBox (1 # 2) (1 # 2) (4 # 5) (9 # 10) "yolo").
Proof.
  apply to_same_format_is_identity; [| reflexivity].
  apply (bool_decide_unpack _). vm_compute. exact I.
Defined.


(** X3. A conversion from or to yolo without dimensions raises
    [ValueError]: to yolo from pascal or coco, to coco and to pascal from
    yolo. *)
Theorem yolo_conversions_need_dimensions (n1 n2 n3 n4 : Q) :
  BoundingBox.to (mkBoundingBox n1 n2 n3 n4 "pascal") "yolo" None
  = Raise (ValueError "Image dimensions are needed to convert to YOLO format from PASCAL.")
  ∧ BoundingBox.to (mkBoundingBox n1 n2 n3 n4 "coco") "yolo" None
    = Raise (ValueError "Image dimensions are needed to convert to YOLO format from COCO.")
  ∧ BoundingBox.to (mkBoundingBox n1 n2 n3 n4 "yolo") "coco" None
    = Raise (ValueError "Image dimensions are needed to convert to COCO format from YOLO.")
  ∧ BoundingBox.to (mkBoundingBox n1 n2 n3 n4 "yolo") "pascal" None
    = Raise (ValueError "Image dimensions are needed to convert to PASCAL format from YOLO.").
Proof. repeat split. Qed.

(** X4. A conversion to yolo for an image with a side equal to zero
    raises [ZeroDivisionError]. *)
Theorem to_yolo_zero_side (self : BoundingBox) (dims : Dimensions) :
  current_format self ≠ "yolo" →
  width dims == 0 ∨ height dims == 0 →
  BoundingBox.to self "yolo" (Some dims) = Raise ZeroDivisionError.
Proof.
  intros Htag Hzero. rewrite (proj1 (to_supported _ _)). unfold BoundingBox.to_yolo.
  destruct (String.eqb_spec (current_format self) "yolo") as [E | _]; [contradiction |].
  destruct (if String.eqb _ _ then _ else _) as [[[xc yc] w] h].
  unfold Num.truediv.
  destruct (Qeq_bool (width dims) 0) eqn:Ew; [reflexivity |].
  destruct Hzero as [Hw | Hh].
  - apply Qeq_bool_iff in Hw. congruence.
  - apply Qeq_bool_iff in Hh. rewrite Hh. reflexivity.
Qed.

Lemma to_yolo_zero_side_witness :
  BoundingBox.to (mkBoundingBox 0 0 10 10 "pascal") "yolo" (Some (mkDimensions 100 0))
  = Raise ZeroDivisionError.
Proof.
  apply to_yolo_zero_side; [discriminate |]. right. reflexivity.
Defined.

(** X5. From yolo, going to pascal through coco is going to pascal. *)
Theorem yolo_to_pascal_through_coco (self : BoundingBox) (dims : Dimensions)
    (dims' : option Dimensions) :
  current_format self = "yolo" →
  (BoundingBox.to self "coco" (Some dims) ≫= λ co, BoundingBox.to co "pascal" dims')
  = BoundingBox.to self "pascal" (Some dims).
Proof.
  intros Htag. destruct self as [n1 n2 n3 n4 tag]. simpl in Htag. subst tag. reflexivity.
Qed.

Lemma yolo_to_pascal_through_coco_witness :
  (BoundingBox.to (mkBoundingBox (1 # 2) (1 # 2) (4 # 5) (9 # 10) "yolo") "coco"
                  (Some (mkDimensions 100 200))
   ≫= λ co, BoundingBox.to co "pascal" None)
  = BoundingBox.to (mkBoundingBox (1 # 2) (1 # 2) (4 # 5) (9 # 10) "yolo") "pascal"
                   (Some (mkDimensions 100 200)).
Proof. apply yolo_to_pascal_through_coco. reflexivity. Defined.








End Conversions.


(** ** Lookups in a dictionary *)

Section DictionaryLookups.

Lemma init_consistent (labels : list string) :
  ∃ dict, Dictionary.init labels = Ok dict ∧ consistent dict
          ∧ label_list dict = first_occurrences labels.
Proof.
  destruct (add_all_consistent labels Dictionary.empty consistent_empty)
    as (dict & Hd & Hc & Hl).
  exists dict. split; [exact Hd |]. split; [exact Hc |].
  simpl in Hl. rewrite filter_none_seen in Hl. exact Hl.
Qed.

Lemma contains_consistent (dict : Dictionary) (L : string) :
  consistent dict → Dictionary.contains dict L = true ↔ L ∈ label_list dict.
Proof.
  intros [_ Hinv]. unfold Dictionary.contains. rewrite bool_decide_eq_true. split.
  - intros [i Hi]. apply Hinv in Hi. eapply list_elem_of_lookup_2. exact Hi.
  - intros Hin. apply list_elem_of_lookup_1 in Hin as [i Hi]. exists i. apply Hinv, Hi.
Qed.

(** X7. In a dictionary built from a list of labels, [contains] tells
    whether the label is one of the list; [index_of] raises for any other
    label; [label] raises for a negative index and for an index from the
    size on, and returns a label for every index in between. *)
Theorem dictionary_lookup_failures (labels : list string) (L : string) (i : Z) :
  ∃ dict,
    Dictionary.init labels = Ok dict
    ∧ (Dictionary.contains dict L = true ↔ L ∈ labels)
    ∧ (L ∉ labels →
       Dictionary.index_of dict L
       = Raise (MuRETException ("Label " +:+ dquote +:+ L +:+ dquote
                                  +:+ " not found in dictionary")))
    ∧ ((i < 0)%Z →
       Dictionary.label dict i = Raise (MuRETException ("Negative index " +:+ pretty i)))
    ∧ ((Z.of_nat (Dictionary.size dict) ≤ i)%Z →
       Dictionary.label dict i
       = Raise (MuRETException ("Index >= " +:+ pretty (Dictionary.size dict))))
    ∧ ((0 ≤ i < Z.of_nat (Dictionary.size dict))%Z →
       ∃ L', Dictionary.label dict i = Ok L' ∧ L' ∈ labels).
Proof.
  destruct (init_consistent labels) as (dict & Hinit & Hc & Hl).
  exists dict. split; [exact Hinit |].
  assert (Hmem : Dictionary.contains dict L = true ↔ L ∈ labels).
  { rewrite (contains_consistent dict L Hc), Hl. apply elem_of_first_occurrences. }
  split; [exact Hmem |]. split; [| split; [| split]].
  - intros Hout. unfold Dictionary.index_of.
    destruct (inverted dict !! L) as [k |] eqn:Hk; [| reflexivity].
    exfalso. apply Hout, Hmem. unfold Dictionary.contains.
    apply bool_decide_eq_true. rewrite Hk. eauto.
  - intros Hneg. unfold Dictionary.label. rewrite bool_decide_eq_true_2 by exact Hneg.
    reflexivity.
  - intros Hbig. unfold Dictionary.label, Dictionary.size in *.
    destruct (bool_decide (i < 0)%Z) eqn:E; [apply bool_decide_eq_true in E; lia |].
    rewrite bool_decide_eq_true_2 by exact Hbig. reflexivity.
  - intros [Hlo Hhi]. unfold Dictionary.size in Hhi.
    destruct (lookup_lt_is_Some_2 (label_list dict) (Z.to_nat i)) as [L' HL']; [lia |].
    exists L'. split.
    + rewrite <- (Z2Nat.id i) by exact Hlo. apply label_of_lookup, HL'.
    + apply elem_of_first_occurrences. rewrite <- Hl. eapply list_elem_of_lookup_2, HL'.
Qed.

Lemma length_first_occurrences (labels : list string) :
  (length (first_occurrences labels) ≤ length labels)%nat.
Proof.
  induction labels as [| x labels IH]; simpl; [lia |].
  pose proof (length_filter (λ y, y ≠ x) (first_occurrences labels)). lia.
Qed.

(** X8. A dictionary only grows and never gives a new index to a label:
    after any further run of [add], every label keeps the index it had, and
    the size has grown by at most the number of labels added. *)
Theorem indices_are_stable (labels more : list string) (L : string) (i : nat) :
  ∃ dict dict',
    Dictionary.init labels = Ok dict
    ∧ Dictionary.add_all dict more = Ok dict'
    ∧ (Dictionary.size dict ≤ Dictionary.size dict' ≤ Dictionary.size dict + length more)%nat
    ∧ (Dictionary.index_of dict L = Ok i →
       Dictionary.index_of dict' L = Ok i ∧ Dictionary.label dict' (Z.of_nat i) = Ok L).
Proof.
  destruct (init_consistent labels) as (dict & Hinit & Hc & _).
  destruct (add_all_consistent more dict Hc) as (dict' & Hall & Hc' & Hl').
  exists dict, dict'. split; [exact Hinit |]. split; [exact Hall |]. split.
  - unfold Dictionary.size. rewrite Hl', length_app.
    pose proof (length_filter (λ y, y ∉ label_list dict) (first_occurrences more)).
    pose proof (length_first_occurrences more). lia.
  - intros Hi. apply index_of_lookup in Hi. destruct Hc as [_ Hinv]. apply Hinv in Hi.
    assert (Hi' : label_list dict' !! i = Some L).
    { rewrite Hl'. rewrite lookup_app_l; [exact Hi |]. eapply lookup_lt_Some, Hi. }
    split; [| apply label_of_lookup, Hi'].
    apply index_of_lookup. destruct Hc' as [_ Hinv']. apply Hinv', Hi'.
Qed.

End DictionaryLookups.


(** ** What the loader returns *)

Section LoaderResults.

Lemma M_bind_ok {A B} (m : M A) (f : A → M B) (s s' : Loader) (y : B) :
  (m ≫= f) s = (Ok y, s') → ∃ x s1, m s = (Ok x, s1) ∧ f x s1 = (Ok y, s').
Proof.
  unfold mbind, M_bind. destruct (m s) as [[x | e] s1]; [eauto | discriminate].
Qed.

Lemma lift_ok {A} (r : result A) (s s' : Loader) (x : A) :
  Load.lift r s = (Ok x, s') → r = Ok x ∧ s' = s.
Proof. unfold Load.lift. intros [= -> ->]. auto. Qed.

Lemma grows_refl (s : Loader) : grows s s.
Proof. repeat split. exists []. rewrite app_nil_r. reflexivity. Qed.

Lemma grows_trans (s1 s2 s3 : Loader) : grows s1 s2 → grows s2 s3 → grows s1 s3.
Proof.
  intros (Hr & Ha & Hp & n1 & Hb) (Hr' & Ha' & Hp' & n2 & Hb').
  repeat split; try congruence.
  exists (n1 ++ n2). rewrite Hb', Hb, <- (assoc_L (++)). reflexivity.
Qed.

Lemma pascal_box_at_grows (s s' : Loader) (l : ref) :
  grows s s' → pascal_box_at s l → pascal_box_at s' l.
Proof.
  intros (_ & _ & _ & extra & Hb) (box & Hl & Htag). exists box. split; [| exact Htag].
  rewrite Hb. rewrite lookup_app_l; [exact Hl |]. eapply lookup_lt_Some, Hl.
Qed.

Lemma known_symbol_grows (s s' : Loader) (symbol : AgnosticSymbol.t) :
  grows s s' → known_symbol s symbol → known_symbol s' symbol.
Proof.
  intros Hg (Ht & Hp & Hb). pose proof Hg as (Hr & Ha & Hp' & _).
  unfold known_symbol. rewrite Ha, Hp'. split; [exact Ht |]. split; [exact Hp |].
  intros l Hl. eapply pascal_box_at_grows; [exact Hg | apply Hb, Hl].
Qed.

Lemma known_region_grows (s s' : Loader) (region : Region.t) :
  grows s s' → known_region s region → known_region s' region.
Proof.
  intros Hg (Ht & Hb & Hs). pose proof Hg as (Hr & _).
  unfold known_region. rewrite Hr. split; [exact Ht |].
  split; [eapply pascal_box_at_grows; eassumption |].
  eapply Forall_impl; [exact Hs |]. intros sym. apply known_symbol_grows, Hg.
Qed.

Lemma known_page_grows (s s' : Loader) (page : Page.t) :
  grows s s' → known_page s page → known_page s' page.
Proof.
  intros Hg (Hb & Hs). split; [eapply pascal_box_at_grows; eassumption |].
  eapply Forall_impl; [exact Hs |]. intros region. apply known_region_grows, Hg.
Qed.

Lemma known_image_grows (s s' : Loader) (image : Image.t) :
  grows s s' → known_image s image → known_image s' image.
Proof.
  intros Hg Hs. eapply Forall_impl; [exact Hs |]. intros page. apply known_page_grows, Hg.
Qed.

(** A loop whose body, when it returns, only grows the state and returns
    something good for the state it leaves. *)
Lemma mapM_grows {A B} (f : A → M B) (good : Loader → B → Prop) (xs : list A) :
  (∀ s s' y, grows s s' → good s y → good s' y) →
  (∀ x s s' y, f x s = (Ok y, s') → grows s s' ∧ good s' y) →
  ∀ s s' ys, mapM f xs s = (Ok ys, s') → grows s s' ∧ Forall (good s') ys.
Proof.
  intros Hstable Hf. induction xs as [| x xs IH]; intros s s' ys.
  - intros [= <- <-]. split; [apply grows_refl | constructor].
  - rewrite mapM_cons_M.
    destruct (f x s) as [[y | e] s1] eqn:Hx; [| discriminate].
    destruct (mapM f xs s1) as [[ys' | e] s2] eqn:Hxs; [| discriminate].
    intros [= <- <-]. destruct (Hf _ _ _ _ Hx) as [Hg1 Hy].
    destruct (IH _ _ _ Hxs) as [Hg2 Hys].
    split; [eapply grows_trans; eassumption |].
    constructor; [eapply Hstable; eassumption | exact Hys].
Qed.

Lemma from_MuRET_ok (bbox : pyval) (s s' : Loader) (l : ref) :
  Load.from_MuRET bbox s = (Ok l, s') → grows s s' ∧ pascal_box_at s' l.
Proof.
  unfold Load.from_MuRET, Load.alloc. unfold_M.
  destruct (Py.getitem bbox (VStr "fromX")); [| discriminate].
  destruct (Py.getitem bbox (VStr "fromY")); [| discriminate].
  destruct (Py.getitem bbox (VStr "toX")); [| discriminate].
  destruct (Py.getitem bbox (VStr "toY")); [| discriminate].
  destruct (Py.as_num _); [| discriminate].
  destruct (Py.as_num _); [| discriminate].
  destruct (Py.as_num _); [| discriminate].
  destruct (Py.as_num _); [| discriminate].
  cbn. intros [= <- <-]. split.
  - repeat split. eexists. reflexivity.
  - eexists. split.
    + simpl. rewrite lookup_app_r by lia. rewrite Nat.sub_diag. reflexivity.
    + reflexivity.
Qed.

(** The check of a label: when the step returns, the label was known and
    nothing was written. *)
Lemma check_ok (known : bool) (register : M unit) (e : exn) (s s' : Loader) (u : unit) :
  (if negb known then register;; Load.raise e else mret ()) s = (Ok u, s') →
  known = true ∧ s' = s.
Proof.
  destruct known; cbn [negb].
  - unfold_M. intros [= _ <-]. auto.
  - unfold_M. destruct (register s) as [[[] | e'] s1]; discriminate.
Qed.

Lemma read_symbol_ok (symbol : pyval) (s s' : Loader) (sym : AgnosticSymbol.t) :
  Load.read_symbol symbol s = (Ok sym, s') → grows s s' ∧ known_symbol s' sym.
Proof.
  unfold Load.read_symbol. intros H.
  apply M_bind_ok in H as (has_box & s1 & H1 & H). apply lift_ok in H1 as [_ ->].
  apply M_bind_ok in H as (box & s1 & Hbox & H).
  assert (Hg1 : grows s s1 ∧ ∀ l, box = Some l → pascal_box_at s1 l).
  { destruct has_box.
    - apply M_bind_ok in Hbox as (bbox & s2 & H2 & Hbox). apply lift_ok in H2 as [_ ->].
      apply M_bind_ok in Hbox as (l & s2 & H2 & Hbox).
      injection Hbox as <- <-. apply from_MuRET_ok in H2 as [Hg Hl].
      split; [exact Hg |]. intros l' [= <-]. exact Hl.
    - injection Hbox as <- <-. split; [apply grows_refl | discriminate]. }
  destruct Hg1 as [Hg1 Hbox'].
  apply M_bind_ok in H as (has_x & s2 & H2 & H). apply lift_ok in H2 as [_ ->].
  apply M_bind_ok in H as (approximate_x & s2 & H2 & H).
  assert (s2 = s1) as ->.
  { destruct has_x; [apply lift_ok in H2 as [_ ->] | injection H2 as _ <-]; reflexivity. }
  apply M_bind_ok in H as (type & s2 & H3 & H). apply lift_ok in H3 as [_ ->].
  apply M_bind_ok in H as (known & s2 & H3 & H). injection H3 as <- <-.
  apply M_bind_ok in H as (u & s2 & H3 & H). apply check_ok in H3 as [Hknown ->].
  apply M_bind_ok in H as (position & s2 & H3 & H). apply lift_ok in H3 as [_ ->].
  apply M_bind_ok in H as (known' & s2 & H3 & H). injection H3 as <- <-.
  apply M_bind_ok in H as (u' & s2 & H3 & H). apply check_ok in H3 as [Hknown' ->].
  injection H as <- <-. split; [exact Hg1 |].
  split; [exact Hknown |]. split; [exact Hknown' | exact Hbox'].
Qed.

Lemma read_region_ok (region : pyval) (s s' : Loader) (r : Region.t) :
  Load.read_region region s = (Ok r, s') → grows s s' ∧ known_region s' r.
Proof.
  unfold Load.read_region. intros H.
  apply M_bind_ok in H as (l & s1 & Hbox & H).
  apply M_bind_ok in Hbox as (bbox & s0 & H0 & Hbox). apply lift_ok in H0 as [_ ->].
  apply from_MuRET_ok in Hbox as [Hg1 Hl].
  apply M_bind_ok in H as (type & s2 & H2 & H). apply lift_ok in H2 as [_ ->].
  apply M_bind_ok in H as (has_enc & s2 & H2 & H). apply lift_ok in H2 as [_ ->].
  apply M_bind_ok in H as (encoding & s2 & H2 & H).
  assert (s2 = s1) as ->.
  { destruct has_enc; [apply lift_ok in H2 as [_ ->] | injection H2 as _ <-]; reflexivity. }
  apply M_bind_ok in H as (known & s2 & H3 & H). injection H3 as <- <-.
  apply M_bind_ok in H as (u & s2 & H3 & H). apply check_ok in H3 as [Hknown ->].
  apply M_bind_ok in H as (has_symbols & s2 & H3 & H). apply lift_ok in H3 as [_ ->].
  apply M_bind_ok in H as (symbols & s2 & Hsym & H). injection H as <- <-.
  assert (Hg2 : grows s1 s2 ∧ Forall (known_symbol s2) symbols).
  { destruct has_symbols.
    - apply M_bind_ok in Hsym as (items & s3 & H3 & Hsym). apply lift_ok in H3 as [_ ->].
      eapply mapM_grows; [| | exact Hsym].
      + intros ? ? ?. apply known_symbol_grows.
      + intros ? ? ? ?. apply read_symbol_ok.
    - injection Hsym as <- <-. split; [apply grows_refl | constructor]. }
  destruct Hg2 as [Hg2 Hsyms]. split; [eapply grows_trans; eassumption |].
  pose proof Hg2 as (Hr & _).
  unfold known_region. simpl. rewrite Hr. split; [exact Hknown |].
  split; [eapply pascal_box_at_grows; eassumption | exact Hsyms].
Qed.

Lemma read_page_ok (page : pyval) (s s' : Loader) (p : Page.t) :
  Load.read_page page s = (Ok p, s') → grows s s' ∧ known_page s' p.
Proof.
  unfold Load.read_page. intros H.
  apply M_bind_ok in H as (l & s1 & Hbox & H).
  apply M_bind_ok in Hbox as (bbox & s0 & H0 & Hbox). apply lift_ok in H0 as [_ ->].
  apply from_MuRET_ok in Hbox as [Hg1 Hl].
  apply M_bind_ok in H as (has_regions & s2 & H2 & H). apply lift_ok in H2 as [_ ->].
  apply M_bind_ok in H as (regions & s2 & Hreg & H). injection H as <- <-.
  assert (Hg2 : grows s1 s2 ∧ Forall (known_region s2) regions).
  { destruct has_regions.
    - apply M_bind_ok in Hreg as (items & s3 & H3 & Hreg). apply lift_ok in H3 as [_ ->].
      eapply mapM_grows; [| | exact Hreg].
      + intros ? ? ?. apply known_region_grows.
      + intros ? ? ? ?. apply read_region_ok.
    - injection Hreg as <- <-. split; [apply grows_refl | constructor]. }
  destruct Hg2 as [Hg2 Hregs]. split; [eapply grows_trans; eassumption |].
  split; [eapply pascal_box_at_grows; eassumption | exact Hregs].
Qed.

Lemma read_file_ok (file : DatasetFile) (s s' : Loader) (image : Image.t) :
  Load.read_file file s = (Ok image, s') → grows s s' ∧ known_image s' image.
Proof.
  unfold Load.read_file. intros H.
  apply M_bind_ok in H as (id & s1 & H1 & H). apply lift_ok in H1 as [_ ->].
  apply M_bind_ok in H as (url & s1 & H1 & H). apply lift_ok in H1 as [_ ->].
  apply M_bind_ok in H as (filename & s1 & H1 & H). apply lift_ok in H1 as [_ ->].
  apply M_bind_ok in H as (has_pages & s1 & H1 & H). apply lift_ok in H1 as [_ ->].
  apply M_bind_ok in H as (pages & s1 & Hpages & H). injection H as <- <-.
  destruct has_pages.
  - apply M_bind_ok in Hpages as (items & s3 & H3 & Hpages). apply lift_ok in H3 as [_ ->].
    eapply mapM_grows; [| | exact Hpages].
    + intros ? ? ?. apply known_page_grows.
    + intros ? ? ? ?. apply read_page_ok.
  - injection Hpages as <- <-. split; [apply grows_refl | constructor].
Qed.

(** X9. A file without one of the keys [id], [url], [filename] is not read:
    [read_file] raises the [KeyError] of the first of them that is missing
    and writes nothing. A file with the three keys and without [pages] is
    an image without any page. *)
Theorem read_file_required_keys (file : DatasetFile) (kvs : gmap string pyval) (s : Loader) :
  json_contents file = VDict kvs →
  (kvs !! "id" = None → Load.read_file file s = (Raise (KeyError (VStr "id")), s))
  ∧ (is_Some (kvs !! "id") → kvs !! "url" = None →
     Load.read_file file s = (Raise (KeyError (VStr "url")), s))
  ∧ (is_Some (kvs !! "id") → is_Some (kvs !! "url") → kvs !! "filename" = None →
     Load.read_file file s = (Raise (KeyError (VStr "filename")), s))
  ∧ (∀ id url filename,
     kvs !! "id" = Some id → kvs !! "url" = Some url → kvs !! "filename" = Some filename →
     kvs !! "pages" = None →
     Load.read_file file s = (Ok (Image.mk id url filename []), s)).
Proof.
  intros Hfile. unfold Load.read_file. rewrite Hfile. unfold_M. cbn [Py.getitem Py.has_key].
  split; [| split; [| split]].
  - intros ->. reflexivity.
  - intros [id ->] ->. reflexivity.
  - intros [id ->] [url ->] ->. reflexivity.
  - intros id url filename -> -> -> ->. reflexivity.
Qed.

Lemma read_file_required_keys_witness :
  Load.read_file (mkDatasetFile None "a" (VDict {["id" := VNum 1]})) Demo.loader
  = (Raise (KeyError (VStr "url")), Demo.loader).
Proof.
  destruct (read_file_required_keys (mkDatasetFile None "a" (VDict {["id" := VNum 1]}))
              {["id" := VNum 1]} Demo.loader eq_refl) as (_ & Hurl & _).
  apply Hurl.
  - exists (VNum 1). reflexivity.
  - reflexivity.
Defined.

(** X10. When [read_file] returns an image, it has not touched the
    dictionaries nor the boxes that were in the store, every label of the
    image is in its dictionary, and every box of the image is a pascal box
    of the store. *)
Theorem read_file_returns_known_graph (file : DatasetFile) (s s' : Loader) (image : Image.t) :
  Load.read_file file s = (Ok image, s') → grows s s' ∧ known_image s' image.
Proof. apply read_file_ok. Qed.

Lemma read_file_returns_known_graph_witness :
  grows Demo.loader (mkLoader Demo.region_types Demo.symbol_types Demo.positions demo_store)
  ∧ known_image (mkLoader Demo.region_types Demo.symbol_types Demo.positions demo_store)
                demo_graph.
Proof.
  apply (read_file_returns_known_graph
           (mkDatasetFile None "a" (Demo.image [Demo.region "staff" []]))).
  vm_compute. reflexivity.
Defined.

Lemma run_tasks_ok (files : list DatasetFile) (s s' : Loader)
    (futures : list (result Image.t)) (images : list Image.t) :
  Load.run_tasks files s = (futures, s') → Load.results futures = Ok images →
  grows s s' ∧ Forall (known_image s') images.
Proof.
  revert s futures images. induction files as [| file files IH]; intros s futures images.
  - intros [= <- <-] [= <-]. split; [apply grows_refl | constructor].
  - simpl. destruct (Load.read_file file s) as [r s1] eqn:Hfile.
    destruct (Load.run_tasks files s1) as [rs s2] eqn:Hrest.
    intros [= <- <-]. destruct r as [image | e]; simpl; [| discriminate].
    destruct (Load.results rs) as [images' |] eqn:Hres; simpl; [| discriminate].
    intros [= <-]. apply read_file_ok in Hfile as [Hg1 Himage].
    destruct (IH _ _ _ Hrest Hres) as [Hg2 Himages].
    split; [eapply grows_trans; eassumption |].
    constructor; [eapply known_image_grows; eassumption | exact Himages].
Qed.

Lemma run_tasks_length (files : list DatasetFile) (s : Loader) :
  length (Load.run_tasks files s).1 = length files.
Proof.
  revert s. induction files as [| file files IH]; intros s; [reflexivity |].
  simpl. destruct (Load.read_file file s) as [r s1].
  specialize (IH s1). destruct (Load.run_tasks files s1) as [rs s2].
  simpl in *. f_equal. exact IH.
Qed.

(** X11. A package that its constructor returns has the three dictionaries
    that [dictionary.json] gives, unchanged by the reading of the files, and
    every label of every image is in its dictionary; the boxes of the images
    are pascal boxes of the store of the package. *)
Theorem package_labels_are_known (fs : FS) (folder : string) (log log' : list string)
    (pkg : Package) :
  Package.init fs folder log = (Ok pkg, log') →
  (∃ log1 log2 log3,
     DictionaryJson.from_json fs (Os.join folder "dictionary.json") "region_dictionary" log
     = (Ok (region_types (package_dictionaries pkg)), log1)
     ∧ DictionaryJson.from_json fs (Os.join folder "dictionary.json") "agnostic_symbol_types" log1
       = (Ok (agnostic_symbol_types (package_dictionaries pkg)), log2)
     ∧ DictionaryJson.from_json fs (Os.join folder "dictionary.json")
                                "agnostic_positions_in_staff" log2
       = (Ok (agnostic_positions_in_staff (package_dictionaries pkg)), log3))
  ∧ training_set_images pkg ≠ []
  ∧ Forall (known_image (package_dictionaries pkg)) (training_set_images pkg).
Proof.
  unfold Package.init. unfold mbind, IO_bind, Io.lift, mret, IO_ret.
  case_io; try discriminate. intros [= <- _]. simpl.
  match goal with
  | Hrun : Load.run_tasks ?files ?s0 = (?futures, ?loader),
    Hres : Load.results ?futures = Ok ?images,
    Hlen : bool_decide (length ?files = 0%nat) = false |- _ =>
      destruct (run_tasks_ok _ _ _ _ _ Hrun Hres) as [(Hr & Ha & Hp & _) Hknown];
      pose proof (results_ok _ _ Hres) as Hfut;
      pose proof (run_tasks_length files s0) as Hcount;
      rewrite Hrun in Hcount; simpl in Hcount;
      apply bool_decide_eq_false in Hlen
  end.
  simpl in Hr, Ha, Hp. rewrite Hr, Ha, Hp.
  split.
  { match goal with
    | H1 : DictionaryJson.from_json _ _ "region_dictionary" _ = (Ok _, ?l1),
      H2 : DictionaryJson.from_json _ _ "agnostic_symbol_types" _ = (Ok _, ?l2),
      H3 : DictionaryJson.from_json _ _ "agnostic_positions_in_staff" _ = (Ok _, ?l3) |- _ =>
        exists l1, l2, l3; repeat split; assumption
    end. }
  split; [| exact Hknown].
  intros ->. subst. simpl in Hcount. auto.
Qed.

Lemma package_labels_are_known_witness :
  ∃ pkg log',
    Package.init (Demo.package Demo.dictionary
                    [("pkg/files/a.json", Demo.image [Demo.region "staff" [Demo.symbol []]])])
                 "pkg" [] = (Ok pkg, log')
    ∧ training_set_images pkg ≠ []
    ∧ Forall (known_image (package_dictionaries pkg)) (training_set_images pkg).
Proof.
  eexists _, _. split; [vm_compute; reflexivity |].
  eapply (package_labels_are_known
            (Demo.package Demo.dictionary
               [("pkg/files/a.json", Demo.image [Demo.region "staff" [Demo.symbol []]])])
            "pkg" []).
  vm_compute. reflexivity.
Defined.

End LoaderResults.


(** ** The listing of the files of a package *)

Section FilesListing.

#[local] Instance key_le_total : Total PackageFilesLoader.key_le.
Proof.
  intros x y. unfold PackageFilesLoader.key_le.
  rewrite (String.compare_antisym (default "" (folder_structure y))).
  destruct (String.compare (default "" (folder_structure x)) (default "" (folder_structure y)));
    simpl; auto.
  apply String.leb_total.
Qed.

Lemma mapM_cons_IO {A B} (f : A → IO B) (x : A) (l : list A) (log : list string) :
  mapM f (x :: l) log
  = match f x log with
    | (Ok y, log1) =>
        match mapM f l log1 with
        | (Ok ys, log2) => (Ok (y :: ys), log2)
        | (Raise e, log2) => (Raise e, log2)
        end
    | (Raise e, log1) => (Raise e, log1)
    end.
Proof. reflexivity. Qed.

Lemma IO_bind_ok {A B} (m : IO A) (f : A → IO B) (log log' : list string) (x : A) :
  m log = (Ok x, log') → (m ≫= f) log = f x log'.
Proof. intros H. unfold mbind, IO_bind. rewrite H. reflexivity. Qed.

Lemma load_json_ok (fs : FS) (structure : option string) (fname : string) (v : pyval)
    (log : list string) :
  files fs !! fname = Some (FJson v) →
  PackageFilesLoader._load_json fs structure fname log
  = (Ok (mkDatasetFile structure (Os.split (Os.splitext_root fname)).2 v), log ++ [fname]).
Proof.
  intros Hv. unfold PackageFilesLoader._load_json, Io.read_json.
  unfold mbind, IO_bind, mret, IO_ret. rewrite Hv. reflexivity.
Qed.

Lemma load_entries (fs : FS) (folderPath : string) (entries : list (string * string))
    (log : list string) :
  Forall (λ entry, ∃ v, files fs !! entry.2 = Some (FJson v)) entries →
  ∃ loaded,
    mapM (λ '(root, fname),
            PackageFilesLoader._load_json fs
              (Some (PackageFilesLoader.drop_prefix (String.length folderPath + 1) root)) fname)
         entries log
    = (Ok loaded, log ++ entries.*2)
    ∧ Forall2 (loaded_from fs folderPath) entries loaded.
Proof.
  intros Hall. revert log. induction Hall as [| [root fname] entries [v Hv] _ IH]; intros log.
  - exists []. split; [| constructor]. rewrite app_nil_r. reflexivity.
  - destruct (IH (log ++ [fname])) as (loaded & Hloaded & Hrel).
    eexists (_ :: loaded). rewrite mapM_cons_IO. cbn beta iota. simpl in Hv.
    rewrite (load_json_ok _ _ _ v) by exact Hv.
    rewrite Hloaded. split.
    + rewrite <- (assoc_L (++)). reflexivity.
    + constructor; [| exact Hrel]. repeat split. exact Hv.
Qed.

Lemma walk_entry (fs : FS) (folderPath root fname : string) :
  (root, fname) ∈ Os.walk fs folderPath →
  is_Some (files fs !! fname) ∧ Os.startswith fname (folderPath +:+ "/") = true.
Proof.
  unfold Os.walk. intros Hin. apply list_elem_of_omap in Hin as ([p f] & Hin & Hsome).
  apply elem_of_map_to_list in Hin.
  destruct (Os.startswith p (folderPath +:+ "/")) eqn:E; [| discriminate].
  injection Hsome as _ <-. split; [eauto | exact E].
Qed.

(** X12. Listing a path that does not exist raises [IOError] and opens
    nothing. Listing a folder whose JSON files all decode returns every
    JSON file under the folder exactly once, with its content, its folder
    relative to the listed one and its name without the extension, in the
    order of (folder, name); each file has been opened once. *)
Theorem load_lists_every_json_file_sorted (fs : FS) (inputPath : string) (log : list string) :
  (Os.exists_ fs inputPath = false →
     PackageFilesLoader.load fs inputPath log
     = (Raise (IOError ("File or folder '" +:+ inputPath +:+ "' does not exist")), log))
  ∧ (Os.isdir fs inputPath = true →
     (∀ p bytes, files fs !! p = Some (FData bytes) →
        Os.startswith p (inputPath +:+ "/") = true → Os.endswith p ".json" = false) →
     ∃ files unsorted,
       PackageFilesLoader.load fs inputPath log
       = (Ok files, log ++ (json_entries fs inputPath).*2)
       ∧ Forall2 (loaded_from fs inputPath) (json_entries fs inputPath) unsorted
       ∧ files ≡ₚ unsorted
       ∧ Sorted PackageFilesLoader.key_le files).
Proof.
  split.
  - intros Hno. unfold PackageFilesLoader.load. rewrite Hno. reflexivity.
  - intros Hdir Hdecode.
    destruct (load_entries fs inputPath (json_entries fs inputPath) log)
      as (unsorted & Hload & Hrel).
    { apply Forall_forall. intros [root fname] Hin.
      apply list_elem_of_filter in Hin as [Hjson Hin].
      apply walk_entry in Hin as [[f Hf] Hstart]. simpl.
      destruct f as [v | bytes]; [eauto |].
      rewrite (Hdecode _ _ Hf Hstart) in Hjson. discriminate. }
    exists (merge_sort PackageFilesLoader.key_le unsorted), unsorted.
    split; [| split; [exact Hrel | split]].
    + unfold PackageFilesLoader.load, Os.exists_. unfold Os.isdir in Hdir |- *.
      rewrite Hdir, orb_true_r. cbn [negb].
      change (PackageFilesLoader._load_folder fs inputPath)
        with (mapM (λ '(root, fname),
                      PackageFilesLoader._load_json fs
                        (Some (PackageFilesLoader.drop_prefix (String.length inputPath + 1) root))
                        fname)
                   (json_entries fs inputPath)).
      rewrite (IO_bind_ok _ _ _ _ _ Hload). reflexivity.
    + apply merge_sort_Permutation.
    + apply (Sorted_merge_sort _).
Qed.

Lemma load_lists_every_json_file_sorted_witness :
  ∃ files unsorted,
    PackageFilesLoader.load
      (Demo.package Demo.dictionary
         [("pkg/files/b/z.json", Demo.image []); ("pkg/files/a/y.json", Demo.image []);
          ("pkg/files/a/notes.txt", Demo.image [])])
      "pkg/files" []
    = (Ok files,
       [] ++ (json_entries
                (Demo.package Demo.dictionary
                   [("pkg/files/b/z.json", Demo.image []); ("pkg/files/a/y.json", Demo.image []);
                    ("pkg/files/a/notes.txt", Demo.image [])]) "pkg/files").*2)
    ∧ Forall2 (loaded_from
                 (Demo.package Demo.dictionary
                    [("pkg/files/b/z.json", Demo.image []); ("pkg/files/a/y.json", Demo.image []);
                     ("pkg/files/a/notes.txt", Demo.image [])]) "pkg/files")
              (json_entries
                 (Demo.package Demo.dictionary
                    [("pkg/files/b/z.json", Demo.image []); ("pkg/files/a/y.json", Demo.image []);
                     ("pkg/files/a/notes.txt", Demo.image [])]) "pkg/files") unsorted
    ∧ files ≡ₚ unsorted
    ∧ Sorted PackageFilesLoader.key_le files.
Proof.
  apply load_lists_every_json_file_sorted.
  - vm_compute. reflexivity.
  - intros p bytes Hp _. exfalso. apply elem_of_map_to_list in Hp.
    eassert (E : map_to_list (files _) = _) by (vm_compute; reflexivity).
    rewrite E in Hp. clear E.
    repeat (apply elem_of_cons in Hp as [Hp | Hp]; [discriminate |]).
    apply elem_of_nil in Hp. exact Hp.
Defined.

Example load_order :
  fmap (M := result) (fmap (M := list) (λ f, (folder_structure f, name f)))
       (PackageFilesLoader.load
           (Demo.package Demo.dictionary
              [("pkg/files/b/z.json", Demo.image []); ("pkg/files/a/y.json", Demo.image []);
               ("pkg/files/x.json", Demo.image []); ("pkg/files/a/notes.txt", Demo.image [])])
           "pkg/files" []).1
  = Ok [(Some "", "x"); (Some "a", "y"); (Some "b", "z")].
Proof. vm_compute. reflexivity. Qed.

End FilesListing.

(** ** Full images *)

Section FullImages.

Lemma mapM_cons_result {A B} (f : A → result B) (x : A) (l : list A) :
  mapM f (x :: l)
  = match f x with
    | Ok y => match mapM f l with Ok ys => Ok (y :: ys) | Raise e => Raise e end
    | Raise e => Raise e
    end.
Proof. reflexivity. Qed.

(** The objects made of the regions of a page. *)
Lemma regions_objects (pkg : Loader) (regions : list Region.t) (objs : list Object) :
  mapM (MuRET2YOLO.create_object_to_detect_from_region pkg) regions = Ok objs →
  Forall2 (λ obj src,
             Dictionary.index_of (region_types pkg) src.1 = Ok (label obj)
             ∧ bounding_box obj = src.2)
          objs ((λ region, (Region.type region, Region.bounding_box region)) <$> regions).
Proof.
  revert objs. induction regions as [| region regions IH]; intros objs.
  - intros [= <-]. constructor.
  - rewrite mapM_cons_result. unfold MuRET2YOLO.create_object_to_detect_from_region at 1.
    destruct (Dictionary.index_of (region_types pkg) (Region.type region)) as [i |] eqn:Hi;
      simpl; [| discriminate].
    destruct (mapM _ regions) as [ys |]; [| discriminate].
    intros [= <-]. constructor; [split; [exact Hi | reflexivity] |]. apply IH. reflexivity.
Qed.

(** The objects made of the pages of an image. *)
Lemma pages_objects (pkg : Loader) (page_class_index : nat) (pages : list Page.t)
    (per_page : list (list Object)) :
  Dictionary.index_of (region_types pkg) "page" = Ok page_class_index →
  mapM (MuRET2YOLO.page_objects pkg page_class_index) pages = Ok per_page →
  Forall2 (λ obj src,
             Dictionary.index_of (region_types pkg) src.1 = Ok (label obj)
             ∧ bounding_box obj = src.2)
          (List.concat per_page)
          (page ← pages;
           ("page", Page.bounding_box page)
             :: ((λ region, (Region.type region, Region.bounding_box region))
                   <$> filter (λ region, Region.type region ≠ "undefined") (Page.regions page))).
Proof.
  intros Hpage. revert per_page. induction pages as [| page pages IH]; intros per_page.
  - intros [= <-]. constructor.
  - rewrite mapM_cons_result. unfold MuRET2YOLO.page_objects at 1.
    destruct (mapM (MuRET2YOLO.create_object_to_detect_from_region pkg) _) as [objs |] eqn:Hobjs;
      simpl; [| discriminate].
    destruct (mapM _ pages) as [rest |]; [| discriminate].
    intros [= <-]. simpl. constructor; [split; [exact Hpage | reflexivity] |].
    apply Forall2_app; [apply regions_objects, Hobjs | apply IH; reflexivity].
Qed.

(** A region of an unknown type stops the objects of its page. *)
Lemma regions_objects_unknown (pkg : Loader) (regions : list Region.t) (region : Region.t) :
  region ∈ regions →
  Dictionary.contains (region_types pkg) (Region.type region) = false →
  ∃ e, mapM (MuRET2YOLO.create_object_to_detect_from_region pkg) regions = Raise e.
Proof.
  intros Hin Hunknown. induction regions as [| other regions IH].
  - apply elem_of_nil in Hin. destruct Hin.
  - rewrite mapM_cons_result. apply elem_of_cons in Hin as [<- | Hin].
    + unfold MuRET2YOLO.create_object_to_detect_from_region at 1.
      unfold Dictionary.index_of. unfold Dictionary.contains in Hunknown.
      destruct (inverted (region_types pkg) !! Region.type region) as [i |] eqn:Hi.
      * exfalso. apply bool_decide_eq_false in Hunknown. apply Hunknown. eauto.
      * simpl. eauto.
    + destruct (IH Hin) as [e ->].
      destruct (MuRET2YOLO.create_object_to_detect_from_region pkg other); eauto.
Qed.

Lemma pages_objects_unknown (pkg : Loader) (page_class_index : nat) (pages : list Page.t)
    (page : Page.t) (region : Region.t) :
  page ∈ pages → region ∈ Page.regions page → Region.type region ≠ "undefined" →
  Dictionary.contains (region_types pkg) (Region.type region) = false →
  ∃ e, mapM (MuRET2YOLO.page_objects pkg page_class_index) pages = Raise e.
Proof.
  intros Hpage Hregion Hdefined Hunknown.
  induction pages as [| other pages IH].
  - apply elem_of_nil in Hpage. destruct Hpage.
  - rewrite mapM_cons_result. apply elem_of_cons in Hpage as [<- | Hpage].
    + unfold MuRET2YOLO.page_objects at 1.
      destruct (regions_objects_unknown pkg
                  (filter (λ region, Region.type region ≠ "undefined") (Page.regions page))
                  region)
        as [e ->]; [| exact Hunknown | simpl; eauto].
      apply list_elem_of_filter. split; assumption.
    + destruct (IH Hpage) as [e ->].
      destruct (MuRET2YOLO.page_objects pkg page_class_index other); eauto.
Qed.

(** The constructor of an image keeps the labels of the objects and their
    order. *)
Lemma init_objects_labels (img_dims resized_dims : Dimensions) (objs objs' : list Object)
    (h h' : list BoundingBox) :
  mapM (λ obj, Object.preprocess obj "yolo" img_dims resized_dims) objs h = (Ok objs', h') →
  Forall2 (λ obj' obj, label obj' = label obj) objs' objs.
Proof.
  revert objs' h. induction objs as [| obj objs IH]; intros objs' h.
  - intros [= <- _]. constructor.
  - rewrite mapM_cons_St.
    destruct (Object.preprocess obj "yolo" img_dims resized_dims h) as [[y | e] h1] eqn:Hx;
      [| discriminate].
    match goal with
    | |- context [match ?m with (_, _) => _ end] => destruct m as [[ys | e] h2] eqn:Hxs
    end; [| discriminate].
    intros [= <- <-]. constructor; [| eapply IH, Hxs].
    apply (preprocess_yolo _ _ _ _ _ _ Hx).
Qed.

(** X13 (src/transcoders/MuRET2YOLO.py, __generate_full_image): an image
    whose pixels cannot be loaded, a region dictionary without the label
    'page' and, when regions are detected, a region whose type is neither
    'undefined' nor in the region dictionary each give no image, and no
    bounding box has been touched. *)
Theorem full_image_gives_up_before_the_boxes (pkg : Loader) (kind : ObjectsToDetectKind)
    (name : string) (representation : Image.t) (pixels : result Pixels)
    (h : list BoundingBox) :
  ((∃ e, pixels = Raise e)
   ∨ Dictionary.contains (region_types pkg) "page" = false
   ∨ (kind = REGIONS
      ∧ ∃ page region,
          page ∈ Image.pages representation ∧ region ∈ Page.regions page
          ∧ Region.type region ≠ "undefined"
          ∧ Dictionary.contains (region_types pkg) (Region.type region) = false)) →
  MuRET2YOLO.generate_full_image pkg kind name representation pixels h = (None, h).
Proof.
  intros Hcase.
  unfold MuRET2YOLO.generate_full_image, MuRET2YOLO.generate_full_image_body. unfold_St.
  destruct pixels as [px | e]; [| reflexivity].
  destruct Hcase as [[e [=]] | Hcase].
  unfold Dictionary.index_of.
  destruct (inverted (region_types pkg) !! "page") as [page_class_index |] eqn:Hpage;
    [| reflexivity].
  destruct Hcase as [Hnone | (-> & page & region & Hp & Hr & Hdefined & Hunknown)].
  { exfalso. unfold Dictionary.contains in Hnone. apply bool_decide_eq_false in Hnone.
    apply Hnone. rewrite Hpage. eauto. }
  destruct (pages_objects_unknown pkg page_class_index _ page region Hp Hr Hdefined Hunknown)
    as [e ->].
  reflexivity.
Qed.

Lemma full_image_gives_up_before_the_boxes_witness :
  MuRET2YOLO.generate_full_image
    (mkLoader Dictionary.empty Dictionary.empty Dictionary.empty [])
    REGIONS "1.jpg" demo_graph (Ok demo_pixels) demo_store
  = (None, demo_store).
Proof.
  apply full_image_gives_up_before_the_boxes. right. left. reflexivity.
Defined.

(** X14 (src/transcoders/MuRET2YOLO.py, __generate_full_image and
    __create_object_to_detect_from_region): the image made when regions
    are detected has the name it was given and one object for every page
    and for every region whose type is not 'undefined', in the order of
    the graph; the label of an object is the index of 'page' or of the
    type of the region in the region dictionary, and its box is tagged
    yolo. *)
Theorem regions_image_objects (pkg : Loader) (name : string) (representation : Image.t)
    (pixels : result Pixels) (h h' : list BoundingBox) (image : ImageYOLO) :
  MuRET2YOLO.generate_full_image pkg REGIONS name representation pixels h = (Some image, h') →
  file_name image = name
  ∧ Forall2 (λ obj src,
               Dictionary.index_of (region_types pkg) src.1 = Ok (label obj)
               ∧ ∃ box, h' !! bounding_box obj = Some box ∧ current_format box = "yolo")
            (objects image) (detected representation).
Proof.
  unfold MuRET2YOLO.generate_full_image.
  destruct (MuRET2YOLO.generate_full_image_body pkg REGIONS name representation pixels h)
    as [[image' | e] h1] eqn:Hbody; [| discriminate].
  intros [= -> ->]. revert Hbody.
  unfold MuRET2YOLO.generate_full_image_body, ImageYOLO.init. unfold_St.
  destruct pixels as [px |]; [| discriminate].
  destruct (Dictionary.index_of (region_types pkg) "page") as [page_class_index |] eqn:Hpage;
    [| discriminate].
  destruct (mapM (MuRET2YOLO.page_objects pkg page_class_index) (Image.pages representation))
    as [per_page |] eqn:Hpages; simpl; [| discriminate].
  match goal with
  | |- context [match ?m with (_, _) => _ end] => destruct m as [[objs' | e] h2] eqn:Hinit
  end; [| discriminate].
  intros [= <- <-]. split; [reflexivity |]. simpl.
  pose proof (pages_objects _ _ _ _ Hpage Hpages) as Hsrc.
  pose proof (init_objects_labels _ _ _ _ _ _ Hinit) as Hlabels.
  pose proof (init_objects_yolo _ _ _ _ _ _ Hinit) as Hyolo.
  unfold detected. clear Hinit Hpages. revert Hsrc Hlabels Hyolo.
  generalize (List.concat per_page).
  generalize (page ← Image.pages representation;
           ("page", Page.bounding_box page)
             :: ((λ region, (Region.type region, Region.bounding_box region))
                   <$> filter (λ region, Region.type region ≠ "undefined") (Page.regions page))).
  intros srcs objs Hsrc. revert objs'.
  induction Hsrc as [| obj src objs srcs [Hi _] _ IH]; intros objs' Hlabels Hyolo.
  - inversion Hlabels; subst. constructor.
  - inversion Hlabels as [| obj' ? objs'' ? Hl Hrest]; subst.
    inversion Hyolo as [| ? ? Hbox Hboxes]; subst.
    constructor; [| apply IH; assumption].
    split; [rewrite Hl; exact Hi | exact Hbox].
Qed.

Lemma regions_image_objects_witness :
  ∃ image h',
    MuRET2YOLO.generate_full_image Demo.loader REGIONS "1.jpg" demo_graph (Ok demo_pixels)
      demo_store = (Some image, h')
    ∧ file_name image = "1.jpg"
    ∧ Forall2 (λ obj src,
                 Dictionary.index_of (region_types Demo.loader) src.1 = Ok (label obj)
                 ∧ ∃ box, h' !! bounding_box obj = Some box ∧ current_format box = "yolo")
              (objects image) (detected demo_graph).
Proof.
  eexists _, _. split; [vm_compute; reflexivity |].
  apply (regions_image_objects Demo.loader "1.jpg" demo_graph (Ok demo_pixels) demo_store).
  vm_compute. reflexivity.
Defined.

End FullImages.

(** ** The classes of a data set *)

Section ClassNames.

Lemma append_empty_r (s : string) : s +:+ "" = s.
Proof.
  induction s as [| ch s IH]; [reflexivity |].
  change (String ch (s +:+ "") = String ch s). rewrite IH. reflexivity.
Qed.

Lemma append_assoc (s1 s2 s3 : string) : (s1 +:+ s2) +:+ s3 = s1 +:+ (s2 +:+ s3).
Proof.
  induction s1 as [| ch s1 IH]; [reflexivity |].
  change (String ch ((s1 +:+ s2) +:+ s3) = String ch (s1 +:+ (s2 +:+ s3))).
  rewrite IH. reflexivity.
Qed.

(** Looking up in a list with one more element at its end. *)
Lemma lookup_snoc_Some {A} (l : list A) (x y : A) (i : nat) :
  (l ++ [x]) !! i = Some y ↔ (l !! i = Some y ∨ (i = length l ∧ y = x)).
Proof.
  destruct (decide (i < length l)%nat) as [Hlt | Hge].
  - rewrite lookup_app_l by exact Hlt. split; [auto |]. intros [H | [-> _]]; [exact H | lia].
  - rewrite lookup_app_r by lia. rewrite (lookup_ge_None_2 l i) by lia.
    destruct (i - length l)%nat as [| k] eqn:Hk; simpl.
    + split.
      * intros [= ->]. right. split; [lia | reflexivity].
      * intros [[=] | [_ ->]]. reflexivity.
    + split; [discriminate |]. intros [[=] | [-> _]]. lia.
Qed.

(** The loop over the labels, from any point of a consistent dictionary. *)
Lemma names_spec (dictionary : Dictionary) (rest done : list string) (text : string)
    (indices : Indices) :
  consistent dictionary →
  label_list dictionary = done ++ rest →
  (∀ i l, i2w indices !! i = Some l ↔ done !! i = Some l) →
  (∀ i l, w2i indices !! l = Some i ↔ done !! i = Some l) →
  ∃ indices',
    DataYAML.names dictionary rest text indices
    = (Ok indices', text +:+ class_lines (length done) rest)
    ∧ (∀ i l, i2w indices' !! i = Some l ↔ label_list dictionary !! i = Some l)
    ∧ (∀ i l, w2i indices' !! l = Some i ↔ label_list dictionary !! i = Some l).
Proof.
  intros [Hnodup Hinv]. revert done text indices.
  induction rest as [| label rest IH]; intros done text indices Hsplit Hi2w Hw2i.
  - exists indices. rewrite app_nil_r in Hsplit. rewrite Hsplit. simpl.
    rewrite append_empty_r. auto.
  - simpl. unfold Dictionary.index_of.
    assert (Hhere : inverted dictionary !! label = Some (length done)).
    { apply Hinv. rewrite Hsplit. apply list_lookup_middle. reflexivity. }
    rewrite Hhere.
    assert (Hfresh : label ∉ done).
    { rewrite Hsplit in Hnodup. apply NoDup_app in Hnodup as (_ & Hdisj & _).
      intros Hin. apply (Hdisj _ Hin). left. }
    destruct (IH (done ++ [label])
                 (text +:+ DataYAML.class_line (length done) label)
                 (mkIndices (<[length done := label]> (i2w indices))
                            (<[label := length done]> (w2i indices))))
      as (indices' & Hrun & H1 & H2).
    + rewrite <- (assoc_L (++)). exact Hsplit.
    + intros i l. simpl. rewrite lookup_snoc_Some.
      destruct (decide (i = length done)) as [-> | Hne].
      * rewrite lookup_insert_eq. rewrite (lookup_ge_None_2 done (length done)) by lia.
        split.
        -- intros [= ->]. right. auto.
        -- intros [[=] | [_ ->]]. reflexivity.
      * rewrite lookup_insert_ne by congruence. rewrite Hi2w.
        split; [auto |]. intros [H | [? _]]; [exact H | contradiction].
    + intros i l. simpl. rewrite lookup_snoc_Some.
      destruct (decide (l = label)) as [-> | Hne].
      * rewrite lookup_insert_eq. split.
        -- intros [= <-]. right. auto.
        -- intros [H | [-> _]]; [| reflexivity].
           exfalso. apply Hfresh. eapply list_elem_of_lookup_2. exact H.
      * rewrite lookup_insert_ne by congruence. rewrite Hw2i.
        split; [auto |]. intros [H | [_ ?]]; [exact H | contradiction].
    + exists indices'. split; [| auto].
      rewrite Hrun. rewrite length_app. simpl. rewrite Nat.add_1_r.
      rewrite append_assoc. reflexivity.
Qed.

(** X15 (src/transcoders/MuRET2YOLO.py, __generate_dataYAML): the classes
    of [dataset.yaml] are the region types when symbols are detected in
    regions and the agnostic symbol types otherwise. For a dictionary
    whose indices are the positions of its labels the file has, after the
    heading, one line per label in the order of the list, numbered from 0,
    and the two indices returned are inverse to each other: [i2w] gives
    the label at each position, [w2i] the position of each label. *)
Theorem data_yaml_lists_the_dictionary (pkg : Loader) (object_kind : ObjectsToDetectKind)
    (output_folder : string) (dictionary : Dictionary) :
  dictionary = match object_kind with
               | SYMBOLS_IN_REGIONS => region_types pkg
               | REGIONS | SYMBOLS_IN_IMAGES => agnostic_symbol_types pkg
               end →
  consistent dictionary →
  ∃ indices,
    DataYAML.generate_dataYAML pkg object_kind output_folder
    = (Ok indices,
       DataYAML.heading output_folder +:+ class_lines 0 (label_list dictionary))
    ∧ (∀ i label, i2w indices !! i = Some label ↔ label_list dictionary !! i = Some label)
    ∧ (∀ i label, w2i indices !! label = Some i ↔ i2w indices !! i = Some label).
Proof.
  intros Hchoice Hconsistent.
  assert (Hrun : DataYAML.generate_dataYAML pkg object_kind output_folder
                 = DataYAML.names dictionary (label_list dictionary)
                     (DataYAML.heading output_folder) (mkIndices ∅ ∅)).
  { rewrite Hchoice. destruct object_kind; reflexivity. }
  rewrite Hrun.
  destruct (names_spec dictionary (label_list dictionary) [] (DataYAML.heading output_folder)
              (mkIndices ∅ ∅) Hconsistent eq_refl)
    as (indices & Hnames & H1 & H2).
  - intros i l. simpl. rewrite lookup_empty, lookup_nil. split; discriminate.
  - intros i l. simpl. rewrite lookup_empty, lookup_nil. split; discriminate.
  - exists indices. split; [exact Hnames |]. split; [exact H1 |].
    intros i label. rewrite H1, H2. reflexivity.
Qed.

Lemma data_yaml_lists_the_dictionary_witness :
  ∃ indices,
    DataYAML.generate_dataYAML Demo.loader REGIONS "out"
    = (Ok indices, DataYAML.heading "out" +:+ class_lines 0 (label_list Demo.symbol_types))
    ∧ (∀ i label,
         i2w indices !! i = Some label ↔ label_list Demo.symbol_types !! i = Some label)
    ∧ (∀ i label, w2i indices !! label = Some i ↔ i2w indices !! i = Some label).
Proof.
  apply (data_yaml_lists_the_dictionary Demo.loader REGIONS "out" Demo.symbol_types).
  - reflexivity.
  - split.
    + apply NoDup_singleton.
    + intros L i. unfold Demo.symbol_types. simpl.
      destruct (decide (L = "clef.G")) as [-> | Hne].
      * rewrite lookup_insert_eq. destruct i as [| i]; simpl.
        -- tauto.
        -- rewrite lookup_nil. split; discriminate.
      * rewrite lookup_insert_ne by congruence. rewrite lookup_empty.
        destruct i as [| i]; simpl.
        -- split; [discriminate | congruence].
        -- rewrite lookup_nil. split; discriminate.
Defined.

Example data_yaml_of_regions_kind :
  (DataYAML.generate_dataYAML Demo.loader REGIONS "out").2
  = DataYAML.heading "out" +:+ "  0: clef.G" +:+ DataYAML.nl.
Proof. vm_compute. reflexivity. Qed.

End ClassNames.

(** ** Crops *)

Section Crops.

Variable pil_resize : Z * Z → Z * Z → result (Z * Z).

(** X16 (src/utils/image_tools.py, encode_cropped and encode): a crop is
    encoded exactly when its box lies inside the picture and stays away
    from its right and bottom edges: 0 <= from < to < size on both axes.
    The array then has the size of the box and the picture is not resized;
    any other box, the one of the whole picture among them, raises
    [ValueError]. *)
Theorem crop_is_encoded_inside_the_picture (pil_image : Z * Z) (from_x from_y to_x to_y : Z) :
  ((0 ≤ from_x < to_x ∧ to_x < pil_image.1 ∧ 0 ≤ from_y < to_y ∧ to_y < pil_image.2)%Z →
     encode_cropped pil_resize pil_image from_x from_y to_x to_y
     = Ok ((to_x - from_x)%Z, (to_y - from_y)%Z))
  ∧ (¬ (0 ≤ from_x < to_x ∧ to_x < pil_image.1 ∧ 0 ≤ from_y < to_y ∧ to_y < pil_image.2)%Z →
     ∃ msg, encode_cropped pil_resize pil_image from_x from_y to_x to_y
            = Raise (ValueError msg)).
Proof.
  unfold encode_cropped, encode. split.
  - intros Hin.
    repeat match goal with
    | |- context [(?x >=? ?y)%Z] => destruct (Z.geb_spec x y); [lia |]
    | |- context [(?x <? ?y)%Z] => destruct (Z.ltb_spec x y); [lia |]
    end.
    simpl.
    destruct (Z.leb_spec (to_x - from_x) 0); [lia |]. simpl.
    rewrite !Z.eqb_refl. reflexivity.
  - intros Hout.
    repeat match goal with
    | |- context [(?x >=? ?y)%Z] => destruct (Z.geb_spec x y)
    | |- context [(?x <? ?y)%Z] => destruct (Z.ltb_spec x y)
    end; simpl; try (eexists; reflexivity).
    exfalso. apply Hout. lia.
Qed.

End Crops.

Lemma crop_is_encoded_inside_the_picture_witness :
  encode_cropped (λ _ size, Ok size) (100, 200)%Z 10 20 99 199 = Ok (89, 179)%Z.
Proof.
  apply (crop_is_encoded_inside_the_picture (λ _ size, Ok size) (100, 200)%Z 10 20 99 199).
  simpl. lia.
Defined.

(** A crop that reaches the right and bottom edges of the picture. *)
Example crop_of_the_whole_picture :
  encode_cropped (λ _ size, Ok size) (100, 200)%Z 0 0 100 200
  = Raise (ValueError "Coordinates must not exceed the image dimensions").
Proof. reflexivity. Qed.

(** ** The box of a polygon *)

Section Polygons.

Lemma foldl_min (xs : list Q) (best : Q) :
  let m := foldl (λ best y, if Qlt_le_dec y best then y else best) best xs in
  (m = best ∨ m ∈ xs) ∧ (m <= best)%Q ∧ ∀ x, x ∈ xs → (m <= x)%Q.
Proof.
  revert best. induction xs as [| y xs IH]; intros best; simpl.
  - split; [left; reflexivity |]. split; [apply Qle_refl |].
    intros x Hx. apply elem_of_nil in Hx. destruct Hx.
  - destruct (IH (if Qlt_le_dec y best then y else best)) as (Hm & Hle & Hall).
    destruct (Qlt_le_dec y best) as [Hlt | Hge].
    + split; [| split].
      * right. destruct Hm as [-> | Hm]; [left | right; exact Hm].
      * eapply Qle_trans; [exact Hle | apply Qlt_le_weak, Hlt].
      * intros x Hx. apply elem_of_cons in Hx as [-> | Hx]; [exact Hle | apply Hall, Hx].
    + split; [| split].
      * destruct Hm as [-> | Hm]; [left; reflexivity | right; right; exact Hm].
      * exact Hle.
      * intros x Hx. apply elem_of_cons in Hx as [-> | Hx]; [| apply Hall, Hx].
        eapply Qle_trans; [exact Hle | exact Hge].
Qed.

Lemma foldl_max (xs : list Q) (best : Q) :
  let m := foldl (λ best y, if Qlt_le_dec best y then y else best) best xs in
  (m = best ∨ m ∈ xs) ∧ (best <= m)%Q ∧ ∀ x, x ∈ xs → (x <= m)%Q.
Proof.
  revert best. induction xs as [| y xs IH]; intros best; simpl.
  - split; [left; reflexivity |]. split; [apply Qle_refl |].
    intros x Hx. apply elem_of_nil in Hx. destruct Hx.
  - destruct (IH (if Qlt_le_dec best y then y else best)) as (Hm & Hle & Hall).
    destruct (Qlt_le_dec best y) as [Hlt | Hge].
    + split; [| split].
      * right. destruct Hm as [-> | Hm]; [left | right; exact Hm].
      * eapply Qle_trans; [apply Qlt_le_weak, Hlt | exact Hle].
      * intros x Hx. apply elem_of_cons in Hx as [-> | Hx]; [exact Hle | apply Hall, Hx].
    + split; [| split].
      * destruct Hm as [-> | Hm]; [left; reflexivity | right; right; exact Hm].
      * exact Hle.
      * intros x Hx. apply elem_of_cons in Hx as [-> | Hx]; [| apply Hall, Hx].
        eapply Qle_trans; [exact Hge | exact Hle].
Qed.

(** [min] of a generator: empty, or the smallest of what it gives. *)
Lemma py_min_cases (xs : list Q) :
  match RepertoriumIIIF2Muret.py_min xs with
  | Ok m => m ∈ xs ∧ ∀ x, x ∈ xs → (m <= x)%Q
  | Raise e => xs = [] ∧ ∃ msg, e = ValueError msg
  end.
Proof.
  destruct xs as [| x xs]; simpl; [eauto |].
  destruct (foldl_min xs x) as (Hm & Hle & Hall). split.
  - destruct Hm as [-> | Hm]; [left | right; exact Hm].
  - intros y Hy. apply elem_of_cons in Hy as [-> | Hy]; [exact Hle | apply Hall, Hy].
Qed.

Lemma py_max_cases (xs : list Q) :
  match RepertoriumIIIF2Muret.py_max xs with
  | Ok m => m ∈ xs ∧ ∀ x, x ∈ xs → (x <= m)%Q
  | Raise e => xs = [] ∧ ∃ msg, e = ValueError msg
  end.
Proof.
  destruct xs as [| x xs]; simpl; [eauto |].
  destruct (foldl_max xs x) as (Hm & Hle & Hall). split.
  - destruct Hm as [-> | Hm]; [left | right; exact Hm].
  - intros y Hy. apply elem_of_cons in Hy as [-> | Hy]; [exact Hle | apply Hall, Hy].
Qed.

(** The coordinates of the points of a polygon, or the first point that
    has none. *)
Lemma coordinates_cases (k : string) (polygon : list (gmap string Q)) :
  match mapM (RepertoriumIIIF2Muret.coordinate k) polygon with
  | Ok xs => Forall2 (λ point x, point !! k = Some x) polygon xs
  | Raise e => e = KeyError (VStr k) ∧ ∃ point, point ∈ polygon ∧ point !! k = None
  end.
Proof.
  induction polygon as [| point polygon IH].
  - constructor.
  - rewrite mapM_cons_result. unfold RepertoriumIIIF2Muret.coordinate at 1.
    destruct (point !! k) as [x |] eqn:Hx.
    + destruct (mapM _ polygon) as [xs | e].
      * constructor; assumption.
      * destruct IH as (-> & other & Hin & Hnone). split; [reflexivity |].
        exists other. split; [right; exact Hin | exact Hnone].
    + split; [reflexivity |]. exists point. split; [left | exact Hx].
Qed.

Lemma coordinate_of_point (k : string) (polygon : list (gmap string Q)) (xs : list Q) :
  Forall2 (λ point x, point !! k = Some x) polygon xs →
  (∀ point, point ∈ polygon → ∃ x, point !! k = Some x ∧ x ∈ xs)
  ∧ (∀ x, x ∈ xs → ∃ point, point ∈ polygon ∧ point !! k = Some x)
  ∧ (xs = [] → polygon = []).
Proof.
  induction 1 as [| point x polygon xs Hx _ (IH1 & IH2 & _)].
  - repeat split; intros ? H; apply elem_of_nil in H; destruct H.
  - repeat split.
    + intros p Hp. apply elem_of_cons in Hp as [-> | Hp].
      * exists x. split; [exact Hx | left].
      * destruct (IH1 p Hp) as (y & Hy & Hin). exists y. split; [exact Hy | right; exact Hin].
    + intros y Hy. apply elem_of_cons in Hy as [-> | Hy].
      * exists point. split; [left | exact Hx].
      * destruct (IH2 y Hy) as (p & Hp & Hpy). exists p. split; [right; exact Hp | exact Hpy].
    + discriminate.
Qed.

(** The box of a polygon is read back as a pascal box with the same
    corners. *)
Lemma polygon_box_read (min_x min_y max_x max_y : Q) (s : Loader) :
  Load.from_MuRET (polygon_box min_x min_y max_x max_y) s
  = (Ok (length (boxes s)),
     mkLoader (region_types s) (agnostic_symbol_types s) (agnostic_positions_in_staff s)
              (boxes s ++ [mkBoundingBox min_x min_y max_x max_y "pascal"])).
Proof. reflexivity. Qed.

(** X17 (src/transcoders/IIIF2Muret.py, __bounding_box_from_polygon): the
    box of a polygon is the smallest one that holds its points: every
    point lies between its corners and each side goes through a point.
    [BoundingBox.from_MuRET] reads it as a pascal box with these corners.
    The only failures are [ValueError] for a polygon without points and
    [KeyError] for a point without 'x' or 'y'. *)
Theorem polygon_box_is_tight (polygon : list (gmap string Q)) :
  match RepertoriumIIIF2Muret.bounding_box_from_polygon polygon with
  | Ok box =>
      ∃ min_x min_y max_x max_y,
        box = polygon_box min_x min_y max_x max_y
        ∧ (∀ point, point ∈ polygon →
             ∃ x y, point !! "x" = Some x ∧ point !! "y" = Some y
                    ∧ (min_x <= x)%Q ∧ (x <= max_x)%Q ∧ (min_y <= y)%Q ∧ (y <= max_y)%Q)
        ∧ (∃ point, point ∈ polygon ∧ point !! "x" = Some min_x)
        ∧ (∃ point, point ∈ polygon ∧ point !! "y" = Some min_y)
        ∧ (∃ point, point ∈ polygon ∧ point !! "x" = Some max_x)
        ∧ (∃ point, point ∈ polygon ∧ point !! "y" = Some max_y)
        ∧ ∀ s, Load.from_MuRET box s
               = (Ok (length (boxes s)),
                  mkLoader (region_types s) (agnostic_symbol_types s)
                           (agnostic_positions_in_staff s)
                           (boxes s ++ [mkBoundingBox min_x min_y max_x max_y "pascal"]))
  | Raise e =>
      (polygon = [] ∧ ∃ msg, e = ValueError msg)
      ∨ ∃ point k, point ∈ polygon ∧ (k = "x" ∨ k = "y") ∧ point !! k = None
                   ∧ e = KeyError (VStr k)
  end.
Proof.
  unfold RepertoriumIIIF2Muret.bounding_box_from_polygon.
  pose proof (coordinates_cases "x" polygon) as Hxs.
  pose proof (coordinates_cases "y" polygon) as Hys.
  destruct (mapM (RepertoriumIIIF2Muret.coordinate "x") polygon) as [xs | e]; simpl;
    [| destruct Hxs as (-> & point & Hin & Hnone); right; exists point, "x"; auto].
  apply coordinate_of_point in Hxs as (Hx1 & Hx2 & Hx3).
  pose proof (py_min_cases xs) as Hminx. pose proof (py_max_cases xs) as Hmaxx.
  destruct (RepertoriumIIIF2Muret.py_min xs) as [min_x | e]; simpl;
    [| destruct Hminx as (-> & msg & ->); left; split; [apply Hx3; reflexivity | eauto]].
  destruct (mapM (RepertoriumIIIF2Muret.coordinate "y") polygon) as [ys | e]; simpl;
    [| destruct Hys as (-> & point & Hin & Hnone); right; exists point, "y"; auto].
  apply coordinate_of_point in Hys as (Hy1 & Hy2 & Hy3).
  pose proof (py_min_cases ys) as Hminy. pose proof (py_max_cases ys) as Hmaxy.
  destruct (RepertoriumIIIF2Muret.py_min ys) as [min_y | e]; simpl;
    [| destruct Hminy as (-> & msg & ->); left; split; [apply Hy3; reflexivity | eauto]].
  destruct (RepertoriumIIIF2Muret.py_max xs) as [max_x | e]; simpl;
    [| destruct Hmaxx as (-> & msg & ->); left; split; [apply Hx3; reflexivity | eauto]].
  destruct (RepertoriumIIIF2Muret.py_max ys) as [max_y | e]; simpl;
    [| destruct Hmaxy as (-> & msg & ->); left; split; [apply Hy3; reflexivity | eauto]].
  destruct Hminx as [Hminx1 Hminx2]. destruct Hmaxx as [Hmaxx1 Hmaxx2].
  destruct Hminy as [Hminy1 Hminy2]. destruct Hmaxy as [Hmaxy1 Hmaxy2].
  exists min_x, min_y, max_x, max_y. split; [reflexivity |].
  split; [| repeat split; auto using polygon_box_read].
  intros point Hin.
  destruct (Hx1 point Hin) as (x & Hx & Hxin). destruct (Hy1 point Hin) as (y & Hy & Hyin).
  exists x, y. repeat split; auto.
Qed.

(** A triangle and its box. *)
Example box_of_a_triangle :
  RepertoriumIIIF2Muret.bounding_box_from_polygon
    [list_to_map [("x", 3%Q); ("y", 7%Q)]; list_to_map [("x", 1%Q); ("y", 9%Q)];
     list_to_map [("x", 5%Q); ("y", 8%Q)]]
  = Ok (polygon_box 1 7 5 9).
Proof. vm_compute. reflexivity. Qed.

Example box_needs_both_coordinates :
  RepertoriumIIIF2Muret.bounding_box_from_polygon
    [list_to_map [("x", 3%Q); ("y", 7%Q)]; list_to_map [("x", 1%Q)]]
  = Raise (KeyError (VStr "y")).
Proof. vm_compute. reflexivity. Qed.

End Polygons.

(** ** Images without a cache folder *)

Section NoCache.

Variable sha256_hexdigest : string → string.

(** One acquisition of the content of an image that has no file. *)
Lemma get_content_uncached (network : string → option string) (img : RemoteImage)
    (u : string) (w : World) :
  disk_file_name img = None → url img = VStr u →
  _get_content network img w
  = (match network u with
     | Some bytes => Ok bytes
     | None => Raise (Exception "Cannot retrieve image")
     end,
     mkWorld (disk w) (fetched w ++ [u])).
Proof.
  intros Hfile Hurl. unfold _get_content. rewrite Hfile, Hurl. unfold url_text. unfold_Net.
  destruct (network u); reflexivity.
Qed.

(** X18 (src/utils/image.py, RemoteImage.__init__ and _get_content):
    without a cache folder the constructor sends no request and leaves the
    disk as it is, and nothing is remembered afterwards: each acquisition
    of the content sends a request for the URL, two of them send two, and
    the disk stays as it was. *)
Theorem without_cache_every_read_is_a_request (network : string → option string)
    (rep : Image.t) (u : string) (w : World) :
  Image.url rep = VStr u →
  ∃ img,
    RemoteImage_init sha256_hexdigest network (Some rep) None w = (Ok img, w)
    ∧ ∀ w1, ∃ r1 r2 w2 w3,
        _get_content network img w1 = (r1, w2)
        ∧ _get_content network img w2 = (r2, w3)
        ∧ fetched w2 = fetched w1 ++ [u]
        ∧ fetched w3 = fetched w1 ++ [u; u]
        ∧ disk w3 = disk w1
        ∧ (∀ bytes, network u = Some bytes → r1 = Ok bytes ∧ r2 = Ok bytes).
Proof.
  intros Hurl. eexists. split; [reflexivity |].
  intros w1. eexists _, _, _, _.
  split; [apply get_content_uncached; [reflexivity | exact Hurl] |].
  split; [apply get_content_uncached; [reflexivity | exact Hurl] |].
  cbn [disk fetched]. rewrite <- (assoc_L (++)).
  do 3 (split; [reflexivity |]).
  intros bytes Hnet. rewrite Hnet. split; reflexivity.
Qed.

End NoCache.

Lemma without_cache_every_read_is_a_request_witness :
  ∃ img,
    RemoteImage_init Demo.digest (λ _, Some "picture") (Some demo_graph) None
      (mkWorld (mkFS ∅ ∅) [])
    = (Ok img, mkWorld (mkFS ∅ ∅) [])
    ∧ ∀ w1, ∃ r1 r2 w2 w3,
        _get_content (λ _, Some "picture") img w1 = (r1, w2)
        ∧ _get_content (λ _, Some "picture") img w2 = (r2, w3)
        ∧ fetched w2 = fetched w1 ++ ["http://example.org/1.jpg"]
        ∧ fetched w3 = fetched w1 ++ ["http://example.org/1.jpg"; "http://example.org/1.jpg"]
        ∧ disk w3 = disk w1
        ∧ (∀ bytes, (λ _ : string, Some "picture") "http://example.org/1.jpg" = Some bytes →
             r1 = Ok bytes ∧ r2 = Ok bytes).
Proof.
  apply (without_cache_every_read_is_a_request Demo.digest (λ _, Some "picture") demo_graph
           "http://example.org/1.jpg" (mkWorld (mkFS ∅ ∅) [])).
  reflexivity.
Defined.
